(** * DreamPi Link Cable - Pi Service Installer (pi_installer.py)

    A shallow embedding of the install / uninstall workflows of
    [DreamPiInstaller], the remote executor [execute_ssh_command], the
    connectivity probes and the settings loader, together with the
    properties of the specification that concern them.

    Modelling conventions.
    - The installer object is the record [Installer]; a method is a
      computation in the monad [M]: it reads and updates the record, may
      raise a Python exception, and appends to a trace of the interactions
      it has with the outside world (sockets, HTTP, child processes,
      message boxes, the shortcut collaborators).
    - The outside world answers through the oracle record [World]; every
      theorem quantifies over all worlds.
    - Tk variables are typed: a [StringVar] holds a string, the port
      [IntVar] an integer, a [BooleanVar] a boolean; reading them is total.
    - Widget calls ([config], [insert], [update]) only update the record.
      The [[HH:MM:SS]] prefix that [log] puts before a message is
      presentation and is left out: [full_log] holds the messages.
    - A worker thread is run to completion at the point where it is
      started; the trace records the start. *)

From Stdlib Require Import ZArith Ascii String DecimalString Lia.
From stdpp Require Import base list strings.

Local Open Scope Z_scope.

(** ** Python string and integer primitives *)

Module Py.

(** [str.isspace] on the ASCII range. *)
Definition isspace (c : ascii) : bool :=
  match c with
  | "009" | "010" | "011" | "012" | "013"
  | "028" | "029" | "030" | "031" | " " => true
  | _ => false
  end%char.

Fixpoint lstrip (s : string) : string :=
  match s with
  | EmptyString => EmptyString
  | String c s' => if isspace c then lstrip s' else s
  end.

Definition rstrip (s : string) : string := String.rev (lstrip (String.rev s)).

(** [s.strip()] *)
Definition strip (s : string) : string := rstrip (lstrip s).

(** Truth value of a string: non-empty. *)
Definition truthy (s : string) : bool :=
  match s with
  | EmptyString => false
  | String _ _ => true
  end.

Fixpoint split_go (sep : ascii) (cur : string) (s : string) : list string :=
  match s with
  | EmptyString => [String.rev cur]
  | String c s' =>
      if Ascii.eqb c sep
      then String.rev cur :: split_go sep EmptyString s'
      else split_go sep (String c cur) s'
  end.

(** [s.split(sep)] for a one-character separator. *)
Definition split (sep : ascii) (s : string) : list string :=
  split_go sep EmptyString s.

(** [sep.join(l)] *)
Definition join (sep : string) (l : list string) : string :=
  String.concat sep l.

(** [str(n)] for an integer. *)
Definition str (n : Z) : string := NilZero.string_of_int (Z.to_int n).

(** [len(s)] *)
Definition len (s : string) : Z := Z.of_nat (String.length s).

(** [s * n] for a one-character string. *)
Fixpoint repeat (c : ascii) (n : nat) : string :=
  match n with
  | O => EmptyString
  | S n' => String c (repeat c n')
  end.

(** [l[-n:]] *)
Definition last_n {A} (n : nat) (l : list A) : list A :=
  drop (length l - n)%nat l.

(** [l[:-1]] *)
Definition but_last {A} (l : list A) : list A :=
  take (length l - 1)%nat l.

End Py.

(** The line feed and the double quote, as one-character strings. *)
Definition nl : string := String "010"%char EmptyString.
Definition dq : string := String "034"%char EmptyString.

(** ** Configuration constants *)

Definition nl2 : string := nl +:+ nl.

Definition GITHUB_REPO_URL : string :=
  "https://raw.githubusercontent.com/eaudunord/taisen-web-ui/main/install.sh".
Definition DEFAULT_HOSTNAME : string := "dreampi.local".
Definition DEFAULT_USERNAME : string := "pi".
Definition DEFAULT_PASSWORD : string := "raspberry".
Definition DEFAULT_PORT : Z := 22.
Definition PORTAL_PORT : Z := 1999.

(** Colours of [setup_style]. *)
Definition success_color : string := "#28a745".
Definition warning_color : string := "#ffc107".
Definition error_color : string := "#dc3545".

Definition installation_steps : list string :=
  [ "Connect to Raspberry Pi (as user)";
    "Download DreamPi Link Cable installer";
    "Install DreamPi Link Cable Web Server";
    "Verify service is running";
    "Create Windows shortcuts" ].

(** ** Exceptions, events and the outside world *)

Inductive ExnClass : Type :=
  | GaiError        (* socket.gaierror *)
  | OtherException. (* any other subclass of Exception *)

Record Exn : Type := mkExn { exn_class : ExnClass; exn_msg : string }.

(** [raise Exception(msg)] *)
Definition Exception (msg : string) : Exn := mkExn OtherException msg.

Inductive Outcome (A : Type) : Type :=
  | Ret (a : A)
  | Raise (e : Exn).
Arguments Ret {A} a.
Arguments Raise {A} e.

(** Result of [process.communicate(timeout=t)]. *)
Inductive CommResult : Type :=
  | Finished (returncode : Z) (stdout stderr : string)
  | TimeoutExpired
  | CommRaise (e : Exn).

Inductive MsgKind : Type := ShowInfo | ShowWarning | ShowError | AskYesNo.

Inductive Worker : Type := InstallWorker | UninstallWorker | TestWorker.

Inductive Event : Type :=
  | EvGetHostByName (host : string)
  | EvSockConnect (host : string) (port : Z) (timeout : Z)
  | EvSleep (seconds : Z)
  | EvUrlOpen (url : string) (timeout : Z)
  | EvPopen (argv : list string) (env_extra : list (string * string))
  | EvCommunicate (timeout : option Z)
  | EvKill
  | EvDesktopShortcut (url : string)
  | EvStartMenuShortcut (url : string)
  | EvMessageBox (kind : MsgKind) (title body : string)
  | EvErrorDialog (text : string)
  | EvOpenBrowser (url : string)
  | EvThreadStart (worker : Worker).

(** The parsed settings object, seen at the four keys that [load_settings]
    reads; [None] is an absent key. *)
Record SettingsDict : Type := mkSettings {
  d_hostname : option string;
  d_username : option string;
  d_password : option string;
  d_port : option Z
}.

(** What reading the settings file can give. *)
Inductive SettingsFile : Type :=
  | FileAbsent                       (* os.path.exists is False *)
  | OpenFails (e : Exn)              (* open raises *)
  | JsonMalformed (e : Exn)          (* json.load raises *)
  | JsonNotObject                    (* valid JSON, but no dict: .get raises *)
  | JsonObject (d : SettingsDict).

Record World : Type := mkWorld {
  (* socket.gethostbyname(host) *)
  w_gethostbyname : string -> Outcome unit;
  (* socket(); settimeout(t); connect_ex((host, port)); close() *)
  w_connect_ex : string -> Z -> Z -> Outcome Z;
  (* urlopen(Request(url), timeout=t).read().decode('utf-8') *)
  w_urlopen : string -> Z -> Outcome string;
  (* shutil.which("sshpass") is truthy *)
  w_which_sshpass : bool;
  (* subprocess.Popen(argv, ..., env=os.environ + env_extra) *)
  w_popen : list string -> list (string * string) -> Outcome unit;
  (* process.communicate(timeout=t) *)
  w_communicate : list string -> Z -> CommResult;
  (* process.communicate() after kill *)
  w_drain : list string -> Outcome (string * string);
  (* the shortcut collaborators create_desktop_shortcut_file(url) and
     create_start_menu_shortcut(url): the lines they log and their result *)
  w_desktop_shortcut : string -> list string * Outcome bool;
  w_start_menu_shortcut : string -> list string * Outcome bool;
  (* messagebox.askyesno(title, body) *)
  w_askyesno : string -> string -> bool;
  (* time.strftime('%Y-%m-%d %H:%M:%S') *)
  w_strftime : string;
  (* the settings file at get_settings_file_path() *)
  w_settings_file : SettingsFile
}.

(** ** The installer object *)

Record Label : Type := mkLabel { text : string; foreground : string }.

Record Button : Type := mkButton { b_state : string; b_text : string }.

Record Installer : Type := mkInstaller {
  hostname_var : string;
  username_var : string;
  password_var : string;
  port_var : Z;
  create_desktop_shortcut : bool;
  create_start_menu : bool;
  is_installing : bool;
  step_labels : list Label;
  progress_bar : nat;
  full_log : list string;
  uninstall_output : list string;
  install_button : Button;
  uninstall_button : Button;
  connection_status_label : Label;
  install_script_content : option string
}.

Definition set_is_installing (b : bool) (st : Installer) : Installer :=
  mkInstaller (hostname_var st) (username_var st) (password_var st) (port_var st)
    (create_desktop_shortcut st) (create_start_menu st) b
    (step_labels st) (progress_bar st) (full_log st) (uninstall_output st)
    (install_button st) (uninstall_button st) (connection_status_label st)
    (install_script_content st).

Definition set_step_labels (l : list Label) (st : Installer) : Installer :=
  mkInstaller (hostname_var st) (username_var st) (password_var st) (port_var st)
    (create_desktop_shortcut st) (create_start_menu st) (is_installing st)
    l (progress_bar st) (full_log st) (uninstall_output st)
    (install_button st) (uninstall_button st) (connection_status_label st)
    (install_script_content st).

Definition set_progress_bar (n : nat) (st : Installer) : Installer :=
  mkInstaller (hostname_var st) (username_var st) (password_var st) (port_var st)
    (create_desktop_shortcut st) (create_start_menu st) (is_installing st)
    (step_labels st) n (full_log st) (uninstall_output st)
    (install_button st) (uninstall_button st) (connection_status_label st)
    (install_script_content st).

Definition set_full_log (l : list string) (st : Installer) : Installer :=
  mkInstaller (hostname_var st) (username_var st) (password_var st) (port_var st)
    (create_desktop_shortcut st) (create_start_menu st) (is_installing st)
    (step_labels st) (progress_bar st) l (uninstall_output st)
    (install_button st) (uninstall_button st) (connection_status_label st)
    (install_script_content st).

Definition set_uninstall_output (l : list string) (st : Installer) : Installer :=
  mkInstaller (hostname_var st) (username_var st) (password_var st) (port_var st)
    (create_desktop_shortcut st) (create_start_menu st) (is_installing st)
    (step_labels st) (progress_bar st) (full_log st) l
    (install_button st) (uninstall_button st) (connection_status_label st)
    (install_script_content st).

Definition set_install_button (b : Button) (st : Installer) : Installer :=
  mkInstaller (hostname_var st) (username_var st) (password_var st) (port_var st)
    (create_desktop_shortcut st) (create_start_menu st) (is_installing st)
    (step_labels st) (progress_bar st) (full_log st) (uninstall_output st)
    b (uninstall_button st) (connection_status_label st)
    (install_script_content st).

Definition set_uninstall_button (b : Button) (st : Installer) : Installer :=
  mkInstaller (hostname_var st) (username_var st) (password_var st) (port_var st)
    (create_desktop_shortcut st) (create_start_menu st) (is_installing st)
    (step_labels st) (progress_bar st) (full_log st) (uninstall_output st)
    (install_button st) b (connection_status_label st)
    (install_script_content st).

Definition set_connection_status_label (l : Label) (st : Installer) : Installer :=
  mkInstaller (hostname_var st) (username_var st) (password_var st) (port_var st)
    (create_desktop_shortcut st) (create_start_menu st) (is_installing st)
    (step_labels st) (progress_bar st) (full_log st) (uninstall_output st)
    (install_button st) (uninstall_button st) l
    (install_script_content st).

Definition set_install_script_content (c : string) (st : Installer) : Installer :=
  mkInstaller (hostname_var st) (username_var st) (password_var st) (port_var st)
    (create_desktop_shortcut st) (create_start_menu st) (is_installing st)
    (step_labels st) (progress_bar st) (full_log st) (uninstall_output st)
    (install_button st) (uninstall_button st) (connection_status_label st)
    (Some c).

Definition set_hostname_var (v : string) (st : Installer) : Installer :=
  mkInstaller v (username_var st) (password_var st) (port_var st)
    (create_desktop_shortcut st) (create_start_menu st) (is_installing st)
    (step_labels st) (progress_bar st) (full_log st) (uninstall_output st)
    (install_button st) (uninstall_button st) (connection_status_label st)
    (install_script_content st).

Definition set_username_var (v : string) (st : Installer) : Installer :=
  mkInstaller (hostname_var st) v (password_var st) (port_var st)
    (create_desktop_shortcut st) (create_start_menu st) (is_installing st)
    (step_labels st) (progress_bar st) (full_log st) (uninstall_output st)
    (install_button st) (uninstall_button st) (connection_status_label st)
    (install_script_content st).

Definition set_password_var (v : string) (st : Installer) : Installer :=
  mkInstaller (hostname_var st) (username_var st) v (port_var st)
    (create_desktop_shortcut st) (create_start_menu st) (is_installing st)
    (step_labels st) (progress_bar st) (full_log st) (uninstall_output st)
    (install_button st) (uninstall_button st) (connection_status_label st)
    (install_script_content st).

Definition set_port_var (v : Z) (st : Installer) : Installer :=
  mkInstaller (hostname_var st) (username_var st) (password_var st) v
    (create_desktop_shortcut st) (create_start_menu st) (is_installing st)
    (step_labels st) (progress_bar st) (full_log st) (uninstall_output st)
    (install_button st) (uninstall_button st) (connection_status_label st)
    (install_script_content st).

(** ** The monad of methods: state, exceptions and a trace *)

Definition M (A : Type) : Type := Installer -> Outcome A * Installer * list Event.

Definition ret {A} (a : A) : M A := fun st => (Ret a, st, []).

Definition raise {A} (e : Exn) : M A := fun st => (Raise e, st, []).

Definition bind {A B} (m : M A) (k : A -> M B) : M B :=
  fun st =>
    match m st with
    | (Ret a, st1, t1) =>
        match k a st1 with
        | (r, st2, t2) => (r, st2, t1 ++ t2)
        end
    | (Raise e, st1, t1) => (Raise e, st1, t1)
    end.

Declare Scope method_scope.
Delimit Scope method_scope with method.
Bind Scope method_scope with M.

Notation "x <- c ;; k" := (bind c (fun x => k))
  (at level 20, c at level 99, k at level 200, only parsing) : method_scope.
Notation "c ;; k" := (bind c (fun _ => k))
  (at level 100, k at level 200, only parsing, right associativity) : method_scope.

Local Open Scope method_scope.

(** [try: body / except Exception as e: handler e] *)
Definition try_except {A} (body : M A) (handler : Exn -> M A) : M A :=
  fun st =>
    match body st with
    | (Ret a, st1, t1) => (Ret a, st1, t1)
    | (Raise e, st1, t1) =>
        match handler e st1 with
        | (r, st2, t2) => (r, st2, t1 ++ t2)
        end
    end.

(** [try: body / finally: fin], for a [fin] that does not raise. *)
Definition try_finally {A} (body : M A) (fin : M unit) : M A :=
  fun st =>
    match body st with
    | (r, st1, t1) =>
        match fin st1 with
        | (Ret _, st2, t2) => (r, st2, t1 ++ t2)
        | (Raise e, st2, t2) => (Raise e, st2, t1 ++ t2)
        end
    end.

Definition get : M Installer := fun st => (Ret st, st, []).

Definition modify (f : Installer -> Installer) : M unit :=
  fun st => (Ret tt, f st, []).

Definition emit (e : Event) : M unit := fun st => (Ret tt, st, [e]).

(** An answer of the world: a value or an exception raised in the caller. *)
Definition answer {A} (o : Outcome A) : M A := fun st => (o, st, []).

(** [if c: raise e] *)
Definition raise_if (c : bool) (e : Exn) : M unit :=
  if c then raise e else ret tt.

(** [for x in l: body x] *)
Fixpoint for_each {A} (l : list A) (body : A -> M unit) : M unit :=
  match l with
  | [] => ret tt
  | x :: l' => body x ;; for_each l' body
  end.

(** Projections of a finished computation. *)
Definition result {A} (r : Outcome A * Installer * list Event) : Outcome A := r.1.1.
Definition final {A} (r : Outcome A * Installer * list Event) : Installer := r.1.2.
Definition trace {A} (r : Outcome A * Installer * list Event) : list Event := r.2.

(** ** The embedded shell templates *)

Definition install_script_lines : list string :=
  [ "#!/bin/bash";
    "set -e";
    "";
    "echo " +:+ dq +:+ "=== DreamPi Link Cable Installation ===" +:+ dq;
    "echo " +:+ dq +:+ "Timestamp: $(date)" +:+ dq;
    "echo " +:+ dq +:+ "User: $(whoami) (UID: $(id -u))" +:+ dq;
    "echo " +:+ dq +:+ "Directory: $(pwd)" +:+ dq;
    "echo " +:+ dq +:+ dq;
    "";
    "# Prevent running as root";
    "if [ " +:+ dq +:+ "$(id -u)" +:+ dq +:+ " = " +:+ dq +:+ "0" +:+ dq +:+ " ]; then";
    "    echo " +:+ dq +:+ "ERROR: This installer must NOT be run as root/sudo" +:+ dq;
    "    echo " +:+ dq +:+ "Please run as regular user: ./install.sh" +:+ dq;
    "    exit 1";
    "fi";
    "";
    "echo " +:+ dq +:+ "Downloading installation script..." +:+ dq;
    "curl -sSL https://raw.githubusercontent.com/eaudunord/taisen-web-ui/main/install.sh -o /tmp/dreampi_install.sh";
    "";
    "if [ ! -f " +:+ dq +:+ "/tmp/dreampi_install.sh" +:+ dq +:+ " ]; then";
    "    echo " +:+ dq +:+ "ERROR: Failed to download installation script" +:+ dq;
    "    exit 1";
    "fi";
    "";
    "echo " +:+ dq +:+ "Making script executable..." +:+ dq;
    "chmod +x /tmp/dreampi_install.sh";
    "";
    "echo " +:+ dq +:+ "Running installation script..." +:+ dq;
    "/tmp/dreampi_install.sh";
    "";
    "echo " +:+ dq +:+ dq;
    "echo " +:+ dq +:+ "=== Post-Installation Checks ===" +:+ dq;
    "";
    "# Check installation directory";
    "if [ -d " +:+ dq +:+ "/opt/dreampi-linkcable" +:+ dq +:+ " ]; then";
    "    echo " +:+ dq +:+ "✓ Installation directory exists" +:+ dq;
    "    echo " +:+ dq +:+ "Files installed:" +:+ dq;
    "    ls -la /opt/dreampi-linkcable/ 2>/dev/null || echo " +:+ dq +:+ "  Cannot list directory contents" +:+ dq;
    "else";
    "    echo " +:+ dq +:+ "✗ Installation directory not found" +:+ dq;
    "fi";
    "";
    "# Check service status";
    "echo " +:+ dq +:+ dq;
    "echo " +:+ dq +:+ "Checking service status..." +:+ dq;
    "if systemctl --user is-active --quiet dreampi-linkcable 2>/dev/null; then";
    "    echo " +:+ dq +:+ "✓ User service is active" +:+ dq;
    "    systemctl --user status dreampi-linkcable --no-pager -l 2>/dev/null || true";
    "elif sudo systemctl is-active --quiet dreampi-linkcable 2>/dev/null; then";
    "    echo " +:+ dq +:+ "✓ System service is active" +:+ dq;
    "    sudo systemctl status dreampi-linkcable --no-pager -l 2>/dev/null || true";
    "else";
    "    echo " +:+ dq +:+ "? Service status unclear - checking both user and system:" +:+ dq;
    "    echo " +:+ dq +:+ "User service:" +:+ dq;
    "    systemctl --user status dreampi-linkcable --no-pager -l 2>/dev/null || echo " +:+ dq +:+ "  Not found" +:+ dq;
    "    echo " +:+ dq +:+ "System service:" +:+ dq;
    "    sudo systemctl status dreampi-linkcable --no-pager -l 2>/dev/null || echo " +:+ dq +:+ "  Not found or no sudo access" +:+ dq;
    "fi";
    "";
    "# Test web server";
    "echo " +:+ dq +:+ dq;
    "echo " +:+ dq +:+ "Testing web server..." +:+ dq;
    "if curl -s -m 10 http://localhost:1999 >/dev/null 2>&1; then";
    "    echo " +:+ dq +:+ "✓ Web server responding on port 1999" +:+ dq;
    "else";
    "    echo " +:+ dq +:+ "✗ Web server not responding on port 1999" +:+ dq;
    "    echo " +:+ dq +:+ "  This may be normal if the service is still starting" +:+ dq;
    "fi";
    "";
    "# Clean up";
    "rm -f /tmp/dreampi_install.sh";
    "";
    "echo " +:+ dq +:+ dq;
    "echo " +:+ dq +:+ "=== Installation Complete ===" +:+ dq;
    "echo " +:+ dq +:+ "Timestamp: $(date)" +:+ dq ].

Definition uninstall_script_lines : list string :=
  [ "#!/bin/bash";
    "set -e";
    "";
    "SERVICE_NAME=" +:+ dq +:+ "dreampi-linkcable" +:+ dq;
    "INSTALL_DIR=" +:+ dq +:+ "/opt/dreampi-linkcable" +:+ dq;
    "";
    "echo " +:+ dq +:+ "=== DreamPi Link Cable Web Server - Complete Uninstaller ===" +:+ dq;
    "echo " +:+ dq +:+ "Timestamp: $(date)" +:+ dq;
    "echo " +:+ dq +:+ "User: $(whoami) (UID: $(id -u))" +:+ dq;
    "echo " +:+ dq +:+ dq;
    "";
    "# Stop service if running";
    "echo " +:+ dq +:+ "Stopping service..." +:+ dq;
    "if sudo systemctl is-active --quiet ${SERVICE_NAME}.service 2>/dev/null; then";
    "    sudo systemctl stop ${SERVICE_NAME}.service";
    "    echo " +:+ dq +:+ "✓ Service stopped" +:+ dq;
    "else";
    "    echo " +:+ dq +:+ "✓ Service was not running" +:+ dq;
    "fi";
    "";
    "# Disable auto-start";
    "echo " +:+ dq +:+ "Disabling auto-start..." +:+ dq;
    "if sudo systemctl is-enabled --quiet ${SERVICE_NAME}.service 2>/dev/null; then";
    "    sudo systemctl disable ${SERVICE_NAME}.service";
    "    echo " +:+ dq +:+ "✓ Auto-start disabled" +:+ dq;
    "else";
    "    echo " +:+ dq +:+ "✓ Auto-start was not enabled" +:+ dq;
    "fi";
    "";
    "# Remove service file";
    "echo " +:+ dq +:+ "Removing service file..." +:+ dq;
    "if [ -f " +:+ dq +:+ "/etc/systemd/system/${SERVICE_NAME}.service" +:+ dq +:+ " ]; then";
    "    sudo rm " +:+ dq +:+ "/etc/systemd/system/${SERVICE_NAME}.service" +:+ dq;
    "    echo " +:+ dq +:+ "✓ Service file removed" +:+ dq;
    "else";
    "    echo " +:+ dq +:+ "✓ Service file was not found" +:+ dq;
    "fi";
    "";
    "# Reload systemd";
    "echo " +:+ dq +:+ "Reloading systemd configuration..." +:+ dq;
    "sudo systemctl daemon-reload";
    "echo " +:+ dq +:+ "✓ Systemd configuration reloaded" +:+ dq;
    "";
    "# Remove installation directory";
    "echo " +:+ dq +:+ "Removing installation files..." +:+ dq;
    "if [ -d " +:+ dq +:+ "$INSTALL_DIR" +:+ dq +:+ " ]; then";
    "    sudo rm -rf " +:+ dq +:+ "$INSTALL_DIR" +:+ dq;
    "    echo " +:+ dq +:+ "✓ Installation directory removed: $INSTALL_DIR" +:+ dq;
    "else";
    "    echo " +:+ dq +:+ "✓ Installation directory was not found" +:+ dq;
    "fi";
    "";
    "echo " +:+ dq +:+ dq;
    "echo " +:+ dq +:+ "=== Uninstall Complete ===" +:+ dq;
    "echo " +:+ dq +:+ "✓ Service stopped and disabled" +:+ dq;
    "echo " +:+ dq +:+ "✓ All installation files removed" +:+ dq;
    "echo " +:+ dq +:+ "✓ Auto-start configuration removed" +:+ dq;
    "echo " +:+ dq +:+ "✓ DreamPi Link Cable Web Server completely removed" +:+ dq;
    "echo " +:+ dq +:+ dq;
    "echo " +:+ dq +:+ "What was NOT affected:" +:+ dq;
    "echo " +:+ dq +:+ "  - Your original link_cable.py script" +:+ dq;
    "echo " +:+ dq +:+ "  - Python packages (pyserial, requests, etc.)" +:+ dq;
    "echo " +:+ dq +:+ "  - DreamPi system functionality" +:+ dq;
    "echo " +:+ dq +:+ "  - Any other installed software" +:+ dq;
    "echo " +:+ dq +:+ dq;
    "echo " +:+ dq +:+ "Uninstall completed successfully at $(date)" +:+ dq ].

Definition install_script : string := Py.join nl install_script_lines +:+ nl.
Definition uninstall_script : string := Py.join nl uninstall_script_lines +:+ nl.

(** The best-effort status query of the Verify step. *)
Definition status_command : string :=
  "systemctl --user is-active dreampi-linkcable 2>/dev/null || sudo systemctl is-active dreampi-linkcable 2>/dev/null || echo 'Service status unknown'".

Arguments install_script : simpl never.
Arguments uninstall_script : simpl never.
Arguments status_command : simpl never.

(** ** Methods of [DreamPiInstaller] *)

(** [log]: append the message to the output log. *)
Definition log (message : string) : M unit :=
  modify (fun st => set_full_log (full_log st ++ [message]) st).

(** [uninstall_log]: append the message to the uninstall output. *)
Definition uninstall_log (message : string) : M unit :=
  modify (fun st => set_uninstall_output (uninstall_output st ++ [message]) st).

(** [for line in out.split('\n'): if line.strip(): logger(prefix + line)] *)
Definition log_output (logger : string -> M unit) (prefix out : string) : M unit :=
  for_each (Py.split "010" out)
    (fun line =>
       if Py.truthy (Py.strip line) then logger (prefix +:+ line) else ret tt).

Definition relabel (step : nat) (status color : string) (labels : list Label)
  : list Label :=
  if (step <? length labels)%nat
  then <[step := mkLabel status color]> labels
  else labels.

Definition completed_steps (labels : list Label) : nat :=
  length (filter (fun l => text l = "Complete") labels).

(** [update_step_status] *)
Definition update_step_status (step : nat) (status color : string) : M unit :=
  modify (fun st =>
    let labels := relabel step status color (step_labels st) in
    set_progress_bar (completed_steps labels) (set_step_labels labels st)).

(** The [ssh_cmd] list built by [execute_ssh_command]. *)
Definition ssh_cmd (st : Installer) (command : string) (timeout : Z) : list string :=
  let hostname := Py.strip (hostname_var st) in
  let username := Py.strip (username_var st) in
  let port := port_var st in
  [ "ssh";
    "-o"; "StrictHostKeyChecking=no";
    "-o"; "UserKnownHostsFile=/dev/null";
    "-o"; "PreferredAuthentications=password";
    "-o"; "PubkeyAuthentication=no";
    "-o"; "ConnectTimeout=" +:+ Py.str (Z.min timeout 30);
    "-p"; Py.str port;
    username +:+ "@" +:+ hostname;
    command ].

(** The text of the [Installation Complete] question. *)
Definition completion_message (pi_url : string) : string :=
  "DreamPi Link Cable installation completed successfully!" +:+ nl2
  +:+ "Web Server: " +:+ pi_url +:+ nl
  +:+ "Service: dreampi-linkcable" +:+ nl
  +:+ "Location: /opt/dreampi-linkcable" +:+ nl2
  +:+ "Would you like to open the web interface now?".

(** The text [detailed_error] of the [Installation Failed] dialog. *)
Definition failure_message (error_msg recent_logs : string) : string :=
  "Installation failed: " +:+ error_msg +:+ nl2
  +:+ "Recent log entries:" +:+ nl +:+ recent_logs.

Section Methods.

Variable w : World.

(** One connectivity probe: a socket with the given timeout and a single
    [connect_ex]. *)
Definition connect_ex (host : string) (port timeout : Z) : M Z :=
  emit (EvSockConnect host port timeout) ;;
  answer (w_connect_ex w host port timeout).

Definition gethostbyname (host : string) : M unit :=
  emit (EvGetHostByName host) ;;
  answer (w_gethostbyname w host).

Definition urlopen (url : string) (timeout : Z) : M string :=
  emit (EvUrlOpen url timeout) ;;
  answer (w_urlopen w url timeout).

Definition showbox (kind : MsgKind) (title body : string) : M unit :=
  emit (EvMessageBox kind title body).

Definition askyesno (title body : string) : M bool :=
  emit (EvMessageBox AskYesNo title body) ;;
  ret (w_askyesno w title body).

(** The full command line and the extra environment of the child. *)
Definition full_cmd (st : Installer) (command : string) (timeout : Z) : list string :=
  if w_which_sshpass w
  then ["sshpass"; "-p"; password_var st] ++ ssh_cmd st command timeout
  else ssh_cmd st command timeout.

Definition env_extra : list (string * string) :=
  if w_which_sshpass w then []
  else [("SSH_ASKPASS", "echo"); ("DISPLAY", "dummy:0")].

(** [execute_ssh_command] *)
Definition execute_ssh_command (command : string) (timeout : Z)
  : M (Z * string * string) :=
  st <- get ;;
  log ("SSH Command: "
       +:+ Py.join " " (Py.but_last (ssh_cmd st command timeout))
       +:+ " '[COMMAND]'") ;;
  try_except
    (let argv := full_cmd st command timeout in
     emit (EvPopen argv env_extra) ;;
     answer (w_popen w argv env_extra) ;;
     emit (EvCommunicate (Some timeout)) ;;
     match w_communicate w argv timeout with
     | Finished returncode stdout stderr => ret (returncode, stdout, stderr)
     | TimeoutExpired =>
         emit EvKill ;;
         emit (EvCommunicate None) ;;
         outs <- answer (w_drain w argv) ;;
         ret (-1, outs.1,
              "SSH command timed out after " +:+ Py.str timeout +:+ " seconds")
     | CommRaise e => raise e
     end)
    (fun e => ret (-1, EmptyString, exn_msg e)).

(** [connect_to_pi] *)
Definition connect_to_pi : M bool :=
  log "Step 1: Connecting to Raspberry Pi..." ;;
  update_step_status 0 "Connecting..." warning_color ;;
  try_except
    (st <- get ;;
     let hostname := Py.strip (hostname_var st) in
     let port := port_var st in
     result <- connect_ex hostname port 10 ;;
     raise_if (negb (result =? 0))
       (Exception ("Cannot connect to " +:+ hostname +:+ ":" +:+ Py.str port)) ;;
     log ("Successfully connected to " +:+ hostname +:+ ":" +:+ Py.str port) ;;
     update_step_status 0 "Complete" success_color ;;
     ret true)
    (fun e =>
       log ("ERROR: Connection failed - " +:+ exn_msg e) ;;
       update_step_status 0 "Failed" error_color ;;
       ret false).

(** [download_install_script] *)
Definition download_install_script : M bool :=
  log "Step 2: Downloading installation script..." ;;
  update_step_status 1 "Downloading..." warning_color ;;
  try_except
    (log ("Downloading from: " +:+ GITHUB_REPO_URL) ;;
     content <- urlopen GITHUB_REPO_URL 30 ;;
     modify (set_install_script_content content) ;;
     raise_if (negb (Py.truthy (Py.strip content)))
       (Exception "Downloaded script is empty") ;;
     log ("Successfully downloaded script (" +:+ Py.str (Py.len content)
          +:+ " bytes)") ;;
     update_step_status 1 "Complete" success_color ;;
     ret true)
    (fun e =>
       log ("ERROR: Download failed - " +:+ exn_msg e) ;;
       update_step_status 1 "Failed" error_color ;;
       ret false).

(** [install_pi_service] *)
Definition install_pi_service : M bool :=
  log "Step 3: Installing DreamPi Link Cable service..." ;;
  update_step_status 2 "Installing..." warning_color ;;
  try_except
    (log "Executing installation script on Pi..." ;;
     log "This may take a few minutes..." ;;
     r <- execute_ssh_command install_script 300 ;;
     let return_code := r.1.1 in
     let stdout := r.1.2 in
     let stderr := r.2 in
     (if Py.truthy stdout then log_output log "Pi: " stdout else ret tt) ;;
     (if Py.truthy stderr then log_output log "SSH Error: " stderr else ret tt) ;;
     if return_code =? 0 then
       log "Installation completed successfully" ;;
       update_step_status 2 "Complete" success_color ;;
       ret true
     else
       log ("Installation failed with exit code " +:+ Py.str return_code) ;;
       update_step_status 2 "Failed" error_color ;;
       ret false)
    (fun e =>
       log ("ERROR: Installation failed - " +:+ exn_msg e) ;;
       update_step_status 2 "Failed" error_color ;;
       ret false).

(** [verify_installation] *)
Definition verify_installation : M bool :=
  log "Step 4: Verifying DreamPi Link Cable installation..." ;;
  update_step_status 3 "Verifying..." warning_color ;;
  try_except
    (st <- get ;;
     let hostname := Py.strip (hostname_var st) in
     let target := hostname +:+ ":" +:+ Py.str PORTAL_PORT in
     emit (EvSleep 5) ;;
     log ("Testing DreamPi Link Cable web server at " +:+ target +:+ "...") ;;
     result <- connect_ex hostname PORTAL_PORT 15 ;;
     if result =? 0 then
       log ("SUCCESS: DreamPi Link Cable web server is accessible at " +:+ target) ;;
       update_step_status 3 "Complete" success_color ;;
       ret true
     else
       log ("WARNING: Web server not yet accessible at " +:+ target) ;;
       log "Checking service status on Pi..." ;;
       r <- execute_ssh_command status_command 30 ;;
       let stdout := r.1.2 in
       (if Py.truthy stdout
        then log ("Service status: " +:+ Py.strip stdout) else ret tt) ;;
       log "Installation may still be successful - service might be starting" ;;
       update_step_status 3 "Complete" warning_color ;;
       ret true)
    (fun e =>
       log ("WARNING: Verification test failed - " +:+ exn_msg e) ;;
       log "Installation may still be successful - check manually" ;;
       update_step_status 3 "Complete" warning_color ;;
       ret true).

(** The shortcut collaborators, through their interface: the lines they
    log and whether the shortcut was created. *)
Definition create_desktop_shortcut_file (portal_url : string) : M bool :=
  emit (EvDesktopShortcut portal_url) ;;
  for_each (w_desktop_shortcut w portal_url).1 log ;;
  answer (w_desktop_shortcut w portal_url).2.

Definition create_start_menu_shortcut (portal_url : string) : M bool :=
  emit (EvStartMenuShortcut portal_url) ;;
  for_each (w_start_menu_shortcut w portal_url).1 log ;;
  answer (w_start_menu_shortcut w portal_url).2.

(** [create_windows_shortcuts] *)
Definition create_windows_shortcuts : M bool :=
  log "Step 5: Creating Windows shortcuts..." ;;
  update_step_status 4 "Creating..." warning_color ;;
  try_except
    (st <- get ;;
     let hostname := Py.strip (hostname_var st) in
     let portal_url := "http://" +:+ hostname +:+ ":" +:+ Py.str PORTAL_PORT in
     n1 <- (if create_desktop_shortcut st then
              created <- create_desktop_shortcut_file portal_url ;;
              if created : bool then
                log "Desktop shortcut created successfully" ;; ret 1%nat
              else
                log "Failed to create desktop shortcut" ;; ret 0%nat
            else ret 0%nat) ;;
     n2 <- (if create_start_menu st then
              created <- create_start_menu_shortcut portal_url ;;
              if created : bool then
                log "Start Menu entry created successfully" ;; ret (S n1)
              else
                log "Failed to create Start Menu entry" ;; ret n1
            else ret n1) ;;
     let shortcuts_created : nat := n2 in
     if (0 <? shortcuts_created)%nat then
       update_step_status 4 "Complete" success_color ;;
       ret true
     else
       update_step_status 4 "Failed" error_color ;;
       ret false)
    (fun e =>
       log ("ERROR: Shortcut creation failed - " +:+ exn_msg e) ;;
       update_step_status 4 "Failed" error_color ;;
       ret false).

(** The worker [install] of [start_installation]; [hostname] is the
    variable of the enclosing call that the closure captures. *)
Definition install (hostname : string) : M unit :=
  modify (set_is_installing true) ;;
  modify (set_install_button (mkButton "disabled" "Installing...")) ;;
  try_finally
    (try_except
       (modify (set_progress_bar 0) ;;
        modify (fun st =>
          set_step_labels
            ((fun _ => mkLabel "Pending" warning_color) <$> step_labels st) st) ;;
        log EmptyString ;;
        log (Py.repeat "=" 60) ;;
        log "STARTING DREAMPI INSTALLATION" ;;
        log (Py.repeat "=" 60) ;;
        (* Step 1: Connect to Pi *)
        ok <- connect_to_pi ;;
        raise_if (negb ok) (Exception "Failed to connect to Raspberry Pi") ;;
        (* Step 2: Download script *)
        ok <- download_install_script ;;
        raise_if (negb ok) (Exception "Failed to download installation script") ;;
        (* Step 3: Install service *)
        ok <- install_pi_service ;;
        raise_if (negb ok) (Exception "Failed to install Pi service") ;;
        (* Step 4: Verify installation *)
        ok <- verify_installation ;;
        raise_if (negb ok) (Exception "Installation verification failed") ;;
        (* Step 5: Create shortcuts *)
        ok <- create_windows_shortcuts ;;
        (if negb ok
         then log "Warning: Some shortcuts may not have been created"
         else ret tt) ;;
        (* Success! *)
        log EmptyString ;;
        log (Py.repeat "=" 60) ;;
        log "DREAMPI LINK CABLE INSTALLATION COMPLETED!" ;;
        log (Py.repeat "=" 60) ;;
        let pi_url := "http://" +:+ hostname +:+ ":" +:+ Py.str PORTAL_PORT in
        log ("DreamPi Link Cable Web Server is now available at: " +:+ pi_url) ;;
        log EmptyString ;;
        log "Installation details:" ;;
        log "• Service: dreampi-linkcable" ;;
        log "• Location: /opt/dreampi-linkcable" ;;
        log "• Auto-start: Enabled" ;;
        log "• Web interface: Port 1999" ;;
        st <- get ;;
        (if create_desktop_shortcut st
         then log "• Desktop shortcut: Created" else ret tt) ;;
        (if create_start_menu st
         then log "• Start Menu entry: Created" else ret tt) ;;
        log EmptyString ;;
        log "Service management commands:" ;;
        log "• Status: sudo systemctl status dreampi-linkcable" ;;
        log "• Restart: sudo systemctl restart dreampi-linkcable" ;;
        log "• Logs: sudo journalctl -u dreampi-linkcable -f" ;;
        log EmptyString ;;
        log ("Installation timestamp: " +:+ w_strftime w) ;;
        (* Offer to open portal *)
        response <- askyesno "Installation Complete" (completion_message pi_url) ;;
        if response : bool then emit (EvOpenBrowser pi_url) else ret tt)
       (fun e =>
          let error_msg := exn_msg e in
          log ("ERROR: Installation failed - " +:+ error_msg) ;;
          st <- get ;;
          let recent_logs :=
            match full_log st with
            | [] => EmptyString
            | _ :: _ => Py.join nl (Py.last_n 10 (full_log st))
            end in
          emit (EvErrorDialog (failure_message error_msg recent_logs))))
    (modify (set_is_installing false) ;;
     modify (set_install_button
               (mkButton "normal" "Install DreamPi Link Cable on Pi"))).

(** [start_installation] *)
Definition start_installation : M unit :=
  st <- get ;;
  if is_installing st then ret tt
  else
    (* Validate settings *)
    let hostname := Py.strip (hostname_var st) in
    let username := Py.strip (username_var st) in
    if negb (Py.truthy hostname) || negb (Py.truthy username) then
      showbox ShowError "Configuration Required"
        "Please configure Pi connection settings in the 'Pi Configuration' tab."
    else
      emit (EvThreadStart InstallWorker) ;;
      install hostname.

(** [execute_uninstall] *)
Definition execute_uninstall : M bool :=
  try_except
    (uninstall_log "Executing uninstall commands on Pi..." ;;
     uninstall_log "This may take a few moments..." ;;
     r <- execute_ssh_command uninstall_script 120 ;;
     let return_code := r.1.1 in
     let stdout := r.1.2 in
     let stderr := r.2 in
     (if Py.truthy stdout
      then log_output uninstall_log "Pi: " stdout else ret tt) ;;
     (if Py.truthy stderr
      then log_output uninstall_log "SSH Error: " stderr else ret tt) ;;
     if return_code =? 0 then
       uninstall_log "Uninstall completed successfully" ;;
       ret true
     else
       uninstall_log ("Uninstall failed with exit code " +:+ Py.str return_code) ;;
       ret false)
    (fun e =>
       uninstall_log ("ERROR: Uninstall execution failed - " +:+ exn_msg e) ;;
       ret false).

(** The worker [uninstall] of [start_uninstall]. *)
Definition uninstall : M unit :=
  modify (set_is_installing true) ;;
  modify (set_uninstall_button (mkButton "disabled" "Uninstalling...")) ;;
  try_finally
    (try_except
       (uninstall_log EmptyString ;;
        uninstall_log (Py.repeat "=" 50) ;;
        uninstall_log "STARTING DREAMPI LINK CABLE UNINSTALL" ;;
        uninstall_log (Py.repeat "=" 50) ;;
        ok <- execute_uninstall ;;
        raise_if (negb ok) (Exception "Uninstall process failed") ;;
        uninstall_log EmptyString ;;
        uninstall_log (Py.repeat "=" 50) ;;
        uninstall_log "DREAMPI LINK CABLE UNINSTALLED SUCCESSFULLY!" ;;
        uninstall_log (Py.repeat "=" 50) ;;
        uninstall_log "All DreamPi Link Cable files and services have been removed." ;;
        uninstall_log "Your Pi has been cleaned up and returned to its previous state." ;;
        uninstall_log EmptyString ;;
        uninstall_log "To reinstall in the future, run this installer again." ;;
        showbox ShowInfo "Uninstall Complete"
          ("DreamPi Link Cable has been completely removed from your Pi." +:+ nl2
           +:+ "All services stopped and files deleted." +:+ nl
           +:+ "Your Pi is now clean."))
       (fun e =>
          uninstall_log ("ERROR: Uninstall failed - " +:+ exn_msg e) ;;
          showbox ShowError "Uninstall Failed"
            ("Uninstall failed: " +:+ exn_msg e +:+ nl2
             +:+ "Check the output log for details.")))
    (modify (set_is_installing false) ;;
     modify (set_uninstall_button
               (mkButton "normal" "Uninstall DreamPi Link Cable"))).

(** [start_uninstall] *)
Definition start_uninstall : M unit :=
  st <- get ;;
  if is_installing st then
    showbox ShowWarning "Installation in Progress"
      "Please wait for the current installation to complete."
  else
    (* Validate settings *)
    let hostname := Py.strip (hostname_var st) in
    let username := Py.strip (username_var st) in
    if negb (Py.truthy hostname) || negb (Py.truthy username) then
      showbox ShowError "Configuration Required"
        "Please configure Pi connection settings in the 'Pi Configuration' tab."
    else
      (* Confirm uninstall *)
      response <- askyesno "Confirm Uninstall"
        ("Are you sure you want to completely remove DreamPi Link Cable from "
         +:+ hostname +:+ "?" +:+ nl2
         +:+ "This will:" +:+ nl
         +:+ "• Stop the web server service" +:+ nl
         +:+ "• Remove all installation files" +:+ nl
         +:+ "• Disable auto-start" +:+ nl2
         +:+ "This action cannot be undone.") ;;
      if negb response then ret tt
      else
        emit (EvThreadStart UninstallWorker) ;;
        uninstall.

(** The worker [test] of [test_pi_connection]. *)
Definition test : M unit :=
  st <- get ;;
  let hostname := Py.strip (hostname_var st) in
  let port := port_var st in
  let target := hostname +:+ ":" +:+ Py.str port in
  if negb (Py.truthy hostname) then
    log "ERROR: Please enter Pi hostname/IP address"
  else
    log ("Testing connection to " +:+ target +:+ "...") ;;
    try_except
      ((* Test hostname resolution *)
       gethostbyname hostname ;;
       log ("SUCCESS: Hostname '" +:+ hostname +:+ "' resolved") ;;
       (* Test SSH port *)
       result <- connect_ex hostname port 5 ;;
       if result =? 0 then
         log ("SUCCESS: SSH port " +:+ Py.str port +:+ " is accessible") ;;
         modify (set_connection_status_label
                   (mkLabel (target +:+ " (Ready)") success_color)) ;;
         showbox ShowInfo "Connection Test"
           ("Connection to " +:+ target +:+ " successful!" +:+ nl2
            +:+ "Your Pi is ready for installation.")
       else
         log ("ERROR: SSH port " +:+ Py.str port +:+ " not accessible") ;;
         modify (set_connection_status_label
                   (mkLabel (target +:+ " (No SSH)") error_color)) ;;
         showbox ShowError "Connection Test"
           ("Cannot connect to SSH on " +:+ target +:+ nl2
            +:+ "Make sure SSH is enabled on your Pi."))
      (fun e =>
         match exn_class e with
         | GaiError =>
             log ("ERROR: Cannot resolve hostname '" +:+ hostname +:+ "'") ;;
             modify (set_connection_status_label
                       (mkLabel (hostname +:+ " (Not found)") error_color)) ;;
             showbox ShowError "Connection Test"
               ("Cannot find '" +:+ hostname +:+ "' on the network." +:+ nl2
                +:+ "Check the hostname/IP address is correct.")
         | OtherException =>
             log ("ERROR: Connection test failed - " +:+ exn_msg e) ;;
             modify (set_connection_status_label
                       (mkLabel "Connection Error" error_color)) ;;
             showbox ShowError "Connection Test"
               ("Connection test failed: " +:+ exn_msg e)
         end).

(** [test_pi_connection] *)
Definition test_pi_connection : M unit :=
  emit (EvThreadStart TestWorker) ;;
  test.

(** [load_settings]; the bare [except: pass] swallows every failure. *)
Definition load_settings : M unit :=
  try_except
    (match w_settings_file w with
     | FileAbsent => ret tt
     | OpenFails e => raise e
     | JsonMalformed e => raise e
     | JsonNotObject => raise (Exception "object has no attribute 'get'")
     | JsonObject settings =>
         modify (set_hostname_var (default DEFAULT_HOSTNAME (d_hostname settings))) ;;
         modify (set_username_var (default DEFAULT_USERNAME (d_username settings))) ;;
         modify (set_password_var (default DEFAULT_PASSWORD (d_password settings))) ;;
         modify (set_port_var (default DEFAULT_PORT (d_port settings)))
     end)
    (fun _ => ret tt).

(** The attributes that [__init__] sets before it calls [load_settings];
    the widgets do not exist yet. *)
Definition fresh_installer : Installer :=
  {| hostname_var := DEFAULT_HOSTNAME;
     username_var := DEFAULT_USERNAME;
     password_var := DEFAULT_PASSWORD;
     port_var := DEFAULT_PORT;
     create_desktop_shortcut := true;
     create_start_menu := true;
     is_installing := false;
     step_labels := [];
     progress_bar := 0;
     full_log := [];
     uninstall_output := [];
     install_button := mkButton "normal" "Install DreamPi Link Cable on Pi";
     uninstall_button := mkButton "normal" "Uninstall DreamPi Link Cable";
     connection_status_label := mkLabel "Not tested" warning_color;
     install_script_content := None |}.

(** [__init__] up to and including [load_settings]. *)
Definition init : Outcome unit * Installer * list Event :=
  load_settings fresh_installer.

End Methods.

(** * Checks of the Python primitives *)

Example strip_example :
  Py.strip "  dreampi.local  " = "dreampi.local"
  /\ Py.strip (" pi" +:+ nl) = "pi"
  /\ Py.strip "   " = EmptyString
  /\ Py.strip "a b" = "a b".
Proof. vm_compute. repeat split. Qed.

Example split_example :
  Py.split "010" ("one" +:+ nl +:+ nl +:+ "two" +:+ nl)
  = ["one"; EmptyString; "two"; EmptyString]
  /\ Py.split "010" EmptyString = [EmptyString].
Proof. vm_compute. repeat split. Qed.

Example str_example :
  Py.str 1999 = "1999" /\ Py.str 0 = "0" /\ Py.str (-1) = "-1".
Proof. vm_compute. repeat split. Qed.

Example join_example :
  Py.join " " (Py.but_last ["ssh"; "-p"; "22"; "script"]) = "ssh -p 22"
  /\ Py.join nl (Py.last_n 2 ["a"; "b"; "c"]) = "b" +:+ nl +:+ "c"
  /\ Py.last_n 10 ["a"; "b"] = ["a"; "b"].
Proof. vm_compute. repeat split. Qed.

Example install_script_example :
  length install_script_lines = 75%nat
  /\ Py.split "010" install_script !! 0%nat = Some "#!/bin/bash"
  /\ Py.split "010" install_script !! 3%nat
     = Some ("echo " +:+ dq +:+ "=== DreamPi Link Cable Installation ===" +:+ dq).
Proof. vm_compute. repeat split. Qed.

(** * Properties of the workflows *)

(** ** Observations on states and traces *)

(** The status texts of the progress list, in step order. *)
Definition statuses (st : Installer) : list string := text <$> step_labels st.

(** [setup_ui] has made one status label per installation step. *)
Definition ui_ready (st : Installer) : Prop :=
  length (step_labels st) = length installation_steps.

(** The connectivity probes of a trace: host, port and timeout. *)
Definition probes (tr : list Event) : list (string * Z * Z) :=
  omap (fun e => match e with
                 | EvSockConnect h p t => Some (h, p, t)
                 | _ => None
                 end) tr.

(** The command lines of the child processes of a trace. *)
Definition popens (tr : list Event) : list (list string) :=
  omap (fun e => match e with
                 | EvPopen argv _ => Some argv
                 | _ => None
                 end) tr.

(** The shortcut requests of a trace. *)
Definition shortcut_requests (tr : list Event) : list Event :=
  omap (fun e => match e with
                 | EvDesktopShortcut _ | EvStartMenuShortcut _ => Some e
                 | _ => None
                 end) tr.

(** The failure dialogs of a trace. *)
Definition failure_reports (tr : list Event) : list string :=
  omap (fun e => match e with
                 | EvErrorDialog t => Some t
                 | _ => None
                 end) tr.

(** The [Installation Complete] questions of a trace. *)
Definition success_reports (tr : list Event) : list string :=
  omap (fun e => match e with
                 | EvMessageBox AskYesNo "Installation Complete" body => Some body
                 | _ => None
                 end) tr.

(** A probe answer that lets the caller go on: [connect_ex] returned 0. *)
Definition reachable (o : Outcome Z) : bool :=
  match o with
  | Ret 0 => true
  | _ => false
  end.

(** ** Status labels *)

Lemma relabel_relabel i s1 c1 s2 c2 l :
  relabel i s2 c2 (relabel i s1 c1 l) = relabel i s2 c2 l.
Proof.
  unfold relabel. destruct (i <? length l)%nat eqn:E.
  - rewrite length_insert, E. apply list_insert_insert_eq.
  - rewrite E. reflexivity.
Qed.

Lemma relabel_lookup i s c l :
  (i < length l)%nat -> text <$> (relabel i s c l !! i) = Some s.
Proof.
  intros Hi. unfold relabel.
  destruct (Nat.ltb_spec i (length l)) as [_|?]; [|lia].
  rewrite list_lookup_insert_eq by exact Hi. reflexivity.
Qed.

(** ** Logging *)

Lemma set_full_log_id st : set_full_log (full_log st) st = st.
Proof. destruct st; reflexivity. Qed.

Lemma for_each_log lines st :
  for_each lines log st = (Ret tt, set_full_log (full_log st ++ lines) st, []).
Proof.
  revert st. induction lines as [|x lines IH]; intros st; cbn.
  - rewrite app_nil_r, set_full_log_id. reflexivity.
  - unfold bind. cbn. rewrite IH. cbn. rewrite <- app_assoc. reflexivity.
Qed.

Lemma log_output_log prefix out st :
  exists lines,
    log_output log prefix out st
    = (Ret tt, set_full_log (full_log st ++ lines) st, []).
Proof.
  unfold log_output. generalize (Py.split "010" out) as l.
  intros l. revert st. induction l as [|x l IH]; intros st; cbn.
  - exists []. rewrite app_nil_r, set_full_log_id. reflexivity.
  - unfold bind. destruct (Py.truthy (Py.strip x)); cbn.
    + destruct (IH (set_full_log (full_log st ++ [prefix +:+ x]) st)) as [lines ->].
      exists ((prefix +:+ x) :: lines). cbn. rewrite <- app_assoc. reflexivity.
    + destruct (IH st) as [lines ->]. exists lines. reflexivity.
Qed.

(** ** What a workflow step may change *)

(** A step of the install workflow only touches the status labels, the
    progress bar, the log and the downloaded script. *)
Definition retouch (labels : list Label) (progress : nat) (lg : list string)
    (content : option string) (st : Installer) : Installer :=
  mkInstaller (hostname_var st) (username_var st) (password_var st) (port_var st)
    (create_desktop_shortcut st) (create_start_menu st) (is_installing st)
    labels progress lg (uninstall_output st)
    (install_button st) (uninstall_button st) (connection_status_label st)
    content.

Arguments relabel : simpl never.
Arguments completed_steps : simpl never.
Arguments Py.strip : simpl never.
Arguments Py.join : simpl never.
Arguments Py.str : simpl never.
Arguments Py.len : simpl never.
Arguments Py.last_n : simpl never.
Arguments Py.but_last : simpl never.
Arguments Py.repeat : simpl never.
Arguments completion_message : simpl never.
Arguments failure_message : simpl never.

(** A trace without reports and shortcut requests. *)
Definition quiet (tr : list Event) : Prop :=
  failure_reports tr = [] /\ success_reports tr = [] /\ shortcut_requests tr = [].

Section Specs.

Variable w : World.

(** *** The remote executor *)

(** The triple that [execute_ssh_command] returns, read off the answers
    of the world (lemma [execute_ssh_command_run]). *)
Definition remote_result (st : Installer) (command : string) (timeout : Z)
  : Z * string * string :=
  let argv := full_cmd w st command timeout in
  match w_popen w argv (env_extra w) with
  | Raise e => (-1, EmptyString, exn_msg e)
  | Ret _ =>
      match w_communicate w argv timeout with
      | Finished returncode stdout stderr => (returncode, stdout, stderr)
      | TimeoutExpired =>
          match w_drain w argv with
          | Ret outs =>
              (-1, outs.1,
               "SSH command timed out after " +:+ Py.str timeout +:+ " seconds")
          | Raise e => (-1, EmptyString, exn_msg e)
          end
      | CommRaise e => (-1, EmptyString, exn_msg e)
      end
  end.

(** The interactions of [execute_ssh_command] with the child process. *)
Definition remote_trace (st : Installer) (command : string) (timeout : Z)
  : list Event :=
  let argv := full_cmd w st command timeout in
  EvPopen argv (env_extra w) ::
  match w_popen w argv (env_extra w) with
  | Raise _ => []
  | Ret _ =>
      EvCommunicate (Some timeout) ::
      match w_communicate w argv timeout with
      | TimeoutExpired => [EvKill; EvCommunicate None]
      | _ => []
      end
  end.

(** The line that [execute_ssh_command] logs. *)
Definition remote_log_line (st : Installer) (command : string) (timeout : Z)
  : string :=
  "SSH Command: "
  +:+ Py.join " " (Py.but_last (ssh_cmd st command timeout))
  +:+ " '[COMMAND]'".

Lemma execute_ssh_command_run st command timeout :
  execute_ssh_command w command timeout st
  = (Ret (remote_result st command timeout),
     set_full_log (full_log st ++ [remote_log_line st command timeout]) st,
     remote_trace st command timeout).
Proof.
  unfold execute_ssh_command, remote_result, remote_trace, remote_log_line.
  unfold bind, try_except, answer, emit, log, modify, get, ret, raise. cbn.
  destruct (w_popen w _ _) as [[]|e]; cbn; [|reflexivity].
  destruct (w_communicate w _ _) as [rc out err| |e]; cbn; try reflexivity.
  destruct (w_drain w _) as [outs|e]; cbn; reflexivity.
Qed.

Lemma remote_trace_quiet st command timeout :
  quiet (remote_trace st command timeout)
  /\ probes (remote_trace st command timeout) = [].
Proof.
  unfold remote_trace, quiet.
  destruct (w_popen w _ _); [destruct (w_communicate w _ _)|]; cbn; auto.
Qed.

Lemma remote_trace_popens st command timeout :
  popens (remote_trace st command timeout) = [full_cmd w st command timeout].
Proof.
  unfold remote_trace.
  destruct (w_popen w _ _); [destruct (w_communicate w _ _)|]; reflexivity.
Qed.

End Specs.

(** ** Symbolic execution on flat states *)

Arguments execute_ssh_command : simpl never.
Arguments connect_to_pi : simpl never.
Arguments download_install_script : simpl never.
Arguments install_pi_service : simpl never.
Arguments verify_installation : simpl never.
Arguments create_windows_shortcuts : simpl never.
Arguments log_output : simpl never.
Arguments remote_result : simpl never.
Arguments remote_trace : simpl never.
Arguments remote_log_line : simpl never.
Arguments log : simpl never.
Arguments update_step_status : simpl never.
Arguments modify : simpl never.
Arguments for_each : simpl never.

Lemma retouch_eta st :
  retouch (step_labels st) (progress_bar st) (full_log st)
    (install_script_content st) st = st.
Proof. destruct st; reflexivity. Qed.

Lemma log_retouch m L n lg c st :
  log m (retouch L n lg c st) = (Ret tt, retouch L n (lg ++ [m]) c st, []).
Proof. reflexivity. Qed.

Lemma update_retouch i s col L n lg c st :
  update_step_status i s col (retouch L n lg c st)
  = (Ret tt,
     retouch (relabel i s col L) (completed_steps (relabel i s col L)) lg c st,
     []).
Proof. reflexivity. Qed.

Lemma content_retouch c' L n lg c st :
  modify (set_install_script_content c') (retouch L n lg c st)
  = (Ret tt, retouch L n lg (Some c') st, []).
Proof. reflexivity. Qed.

Lemma for_each_log_retouch lines L n lg c st :
  for_each lines log (retouch L n lg c st)
  = (Ret tt, retouch L n (lg ++ lines) c st, []).
Proof. rewrite for_each_log. reflexivity. Qed.

Lemma log_output_retouch prefix out L n lg c st :
  exists lines,
    log_output log prefix out (retouch L n lg c st)
    = (Ret tt, retouch L n (lg ++ lines) c st, []).
Proof.
  destruct (log_output_log prefix out (retouch L n lg c st)) as [lines ->].
  exists lines. reflexivity.
Qed.

Ltac exec :=
  repeat first
    [ rewrite log_retouch
    | rewrite update_retouch
    | rewrite content_retouch
    | rewrite for_each_log_retouch
    | progress cbn ].

Ltac open_method :=
  unfold bind, try_except, try_finally, raise_if, answer, emit, get, ret, raise.

Ltac step_log_output :=
  lazymatch goal with
  | |- context [log_output log ?p ?o (retouch ?L ?n ?lg ?c ?st)] =>
      let ls := fresh "lines" in
      let E := fresh "E" in
      destruct (log_output_retouch p o L n lg c st) as [ls E]; rewrite E; clear E
  end.

Section StepSpecs.
Variable w : World.

Lemma execute_ssh_command_retouch command timeout L n lg c st :
  execute_ssh_command w command timeout (retouch L n lg c st)
  = (Ret (remote_result w st command timeout),
     retouch L n (lg ++ [remote_log_line st command timeout]) c st,
     remote_trace w st command timeout).
Proof. rewrite execute_ssh_command_run. reflexivity. Qed.

Lemma connect_to_pi_retouch L n lg c st :
  let h := Py.strip (hostname_var st) in
  let ok := reachable (w_connect_ex w h (port_var st) 10) in
  exists n' lg',
    connect_to_pi w (retouch L n lg c st)
    = (Ret ok,
       retouch (relabel 0 (if ok then "Complete" else "Failed")
                  (if ok then success_color else error_color) L)
         n' lg' c st,
       [EvSockConnect h (port_var st) 10]).
Proof.
  intros h ok. subst h ok. unfold connect_to_pi, connect_ex. open_method. exec.
  destruct (w_connect_ex w _ _ _) as [[|p|p]|e]; exec;
    rewrite ?relabel_relabel; eexists _, _; reflexivity.
Qed.

Definition downloaded (o : Outcome string) : bool :=
  match o with
  | Ret content => Py.truthy (Py.strip content)
  | Raise _ => false
  end.

Lemma download_install_script_retouch L n lg c st :
  let ok := downloaded (w_urlopen w GITHUB_REPO_URL 30) in
  exists n' lg' c',
    download_install_script w (retouch L n lg c st)
    = (Ret ok,
       retouch (relabel 1 (if ok then "Complete" else "Failed")
                  (if ok then success_color else error_color) L)
         n' lg' c' st,
       [EvUrlOpen GITHUB_REPO_URL 30]).
Proof.
  intros ok. subst ok. unfold download_install_script, urlopen. open_method. exec.
  destruct (w_urlopen w _ _) as [content|e]; exec.
  - destruct (Py.truthy (Py.strip content)); exec;
      rewrite ?relabel_relabel; eexists _, _, _; reflexivity.
  - rewrite ?relabel_relabel; eexists _, _, _; reflexivity.
Qed.

Lemma install_pi_service_retouch L n lg c st :
  let ok := (remote_result w st install_script 300).1.1 =? 0 in
  exists n' lg',
    install_pi_service w (retouch L n lg c st)
    = (Ret ok,
       retouch (relabel 2 (if ok then "Complete" else "Failed")
                  (if ok then success_color else error_color) L)
         n' lg' c st,
       remote_trace w st install_script 300).
Proof.
  intros ok. subst ok. unfold install_pi_service. open_method. exec.
  rewrite execute_ssh_command_retouch. exec.
  destruct (remote_result w st install_script 300) as [[rc out] err]. exec.
  destruct (Py.truthy out); exec; [step_log_output; exec|].
  all: destruct (Py.truthy err); exec; [step_log_output; exec|].
  all: destruct (rc =? 0); exec.
  all: rewrite ?relabel_relabel, ?app_nil_r.
  all: eexists _, _; reflexivity.
Qed.

Lemma verify_installation_retouch L n lg c st :
  let h := Py.strip (hostname_var st) in
  exists col n' lg' tr,
    verify_installation w (retouch L n lg c st)
    = (Ret true,
       retouch (relabel 3 "Complete" col L) n' lg' c st,
       EvSleep 5 :: EvSockConnect h PORTAL_PORT 15 :: tr)
    /\ quiet tr /\ probes tr = [].
Proof.
  intros h. subst h. unfold verify_installation, connect_ex. open_method. exec.
  assert (Hq : quiet [] /\ probes [] = []) by (unfold quiet; auto).
  destruct (w_connect_ex w _ _ _) as [z|e]; exec.
  - destruct (z =? 0); exec.
    + rewrite ?relabel_relabel. eexists _, _, _, _. split; [reflexivity|exact Hq].
    + rewrite execute_ssh_command_retouch. exec.
      lazymatch goal with
      | |- context [Py.truthy ?x] => destruct (Py.truthy x)
      end; exec; rewrite ?relabel_relabel, ?app_nil_r.
      all: eexists _, _, _, _; split; [reflexivity|apply remote_trace_quiet].
  - rewrite ?relabel_relabel. eexists _, _, _, _. split; [reflexivity|exact Hq].
Qed.


(** A trace of the Shortcuts step: only shortcut requests. *)
Definition shortcuts_only (tr : list Event) : Prop :=
  probes tr = [] /\ popens tr = [] /\
  failure_reports tr = [] /\ success_reports tr = [].

Lemma create_windows_shortcuts_retouch L n lg c st :
  exists (b : bool) n' lg' tr,
    create_windows_shortcuts w (retouch L n lg c st)
    = (Ret b,
       retouch (relabel 4 (if b then "Complete" else "Failed")
                  (if b then success_color else error_color) L)
         n' lg' c st,
       tr)
    /\ shortcuts_only tr
    /\ (create_desktop_shortcut st = false ->
        create_start_menu st = false -> b = false /\ tr = []).
Proof.
  unfold create_windows_shortcuts, create_desktop_shortcut_file,
    create_start_menu_shortcut.
  open_method. exec.
  destruct (create_desktop_shortcut st) eqn:Ed;
    destruct (create_start_menu st) eqn:Es; exec.
  all: repeat lazymatch goal with
         | |- context [(w_desktop_shortcut w ?u).2] =>
             destruct ((w_desktop_shortcut w u).2) as [[|]|?]; exec
         | |- context [(w_start_menu_shortcut w ?u).2] =>
             destruct ((w_start_menu_shortcut w u).2) as [[|]|?]; exec
         end.
  all: rewrite ?relabel_relabel.
  all: first [ exists true; eexists _, _, _; split; [reflexivity|]
             | exists false; eexists _, _, _; split; [reflexivity|] ].
  all: split; [repeat split|]; try (intros; discriminate).
  all: intros _ _; split; reflexivity.
Qed.


Lemma modify_run f st : modify f st = (Ret tt, f st, []).
Proof. reflexivity. Qed.

Lemma reset_retouch L n st :
  set_step_labels L (set_progress_bar n st)
  = retouch L n (full_log st) (install_script_content st) st.
Proof. reflexivity. Qed.

Definition pending : Label := mkLabel "Pending" warning_color.

Lemma pending_labels st :
  ui_ready st ->
  (fun _ => mkLabel "Pending" warning_color) <$> step_labels st
  = [pending; pending; pending; pending; pending].
Proof.
  unfold ui_ready. destruct (step_labels st) as [|? [|? [|? [|? [|? [|? ?]]]]]];
    cbn; intros H; try discriminate H. reflexivity.
Qed.

Lemma unreachable_not_reachable (o : Outcome Z) : o <> Ret 0 -> reachable o = false.
Proof. destruct o as [[|?|?]|?]; intros H; try reflexivity. congruence. Qed.

Arguments reachable : simpl never.
Arguments downloaded : simpl never.

Ltac step_connect :=
  lazymatch goal with
  | |- context [connect_to_pi ?w' (retouch ?L ?n ?lg ?c ?S)] =>
      let n' := fresh "n" in let lg' := fresh "lg" in let E := fresh "E" in
      destruct (connect_to_pi_retouch L n lg c S) as (n' & lg' & E);
      rewrite E; clear E
  end.

Lemma install_connect_failure h st :
  ui_ready st ->
  w_connect_ex w (Py.strip (hostname_var st)) (port_var st) 10 <> Ret 0 ->
  exists recent,
    result (install w h st) = Ret tt
    /\ statuses (final (install w h st))
       = ["Failed"; "Pending"; "Pending"; "Pending"; "Pending"]
    /\ trace (install w h st)
       = [EvSockConnect (Py.strip (hostname_var st)) (port_var st) 10;
          EvErrorDialog
            (failure_message "Failed to connect to Raspberry Pi" recent)]
    /\ is_installing (final (install w h st)) = false.
Proof.
  intros Hui Hconn. apply unreachable_not_reachable in Hconn.
  unfold install. open_method. rewrite !modify_run.
  cbn. rewrite (pending_labels st Hui), reset_retouch. exec.
  step_connect. cbn. rewrite Hconn. exec. rewrite !modify_run. cbn.
  eexists. repeat split. 
Qed.


Lemma remote_result_busy b i st command timeout :
  remote_result w (set_install_button b (set_is_installing i st)) command timeout
  = remote_result w st command timeout.
Proof. reflexivity. Qed.

Lemma remote_trace_busy b i st command timeout :
  remote_trace w (set_install_button b (set_is_installing i st)) command timeout
  = remote_trace w st command timeout.
Proof. reflexivity. Qed.

Lemma downloaded_ok content :
  w_urlopen w GITHUB_REPO_URL 30 = Ret content ->
  Py.truthy (Py.strip content) = true ->
  downloaded (w_urlopen w GITHUB_REPO_URL 30) = true.
Proof. intros -> H. exact H. Qed.

Ltac step_download :=
  lazymatch goal with
  | |- context [download_install_script ?w' (retouch ?L ?n ?lg ?c ?S)] =>
      let n' := fresh "n" in let lg' := fresh "lg" in
      let c' := fresh "c" in let E := fresh "E" in
      destruct (download_install_script_retouch L n lg c S) as (n' & lg' & c' & E);
      rewrite E; clear E
  end.

Ltac step_install :=
  lazymatch goal with
  | |- context [install_pi_service ?w' (retouch ?L ?n ?lg ?c ?S)] =>
      let n' := fresh "n" in let lg' := fresh "lg" in let E := fresh "E" in
      destruct (install_pi_service_retouch L n lg c S) as (n' & lg' & E);
      rewrite E; clear E; rewrite ?remote_result_busy, ?remote_trace_busy
  end.

Ltac step_verify :=
  lazymatch goal with
  | |- context [verify_installation ?w' (retouch ?L ?n ?lg ?c ?S)] =>
      let col := fresh "col" in
      let n' := fresh "n" in let lg' := fresh "lg" in
      let tr := fresh "trV" in let E := fresh "E" in
      let Hq := fresh "HquietV" in let Hp := fresh "HprobesV" in
      destruct (verify_installation_retouch L n lg c S)
        as (col & n' & lg' & tr & E & Hq & Hp);
      rewrite E; clear E
  end.

Ltac step_shortcuts :=
  lazymatch goal with
  | |- context [create_windows_shortcuts ?w' (retouch ?L ?n ?lg ?c ?S)] =>
      let b := fresh "created" in
      let n' := fresh "n" in let lg' := fresh "lg" in
      let tr := fresh "trS" in let E := fresh "E" in
      let Ho := fresh "HonlyS" in let Hn := fresh "HnoneS" in
      destruct (create_windows_shortcuts_retouch L n lg c S)
        as (b & n' & lg' & tr & E & Ho & Hn);
      rewrite E; clear E
  end.

Lemma install_service_failure h st content :
  ui_ready st ->
  w_connect_ex w (Py.strip (hostname_var st)) (port_var st) 10 = Ret 0 ->
  w_urlopen w GITHUB_REPO_URL 30 = Ret content ->
  Py.truthy (Py.strip content) = true ->
  (remote_result w st install_script 300).1.1 <> 0 ->
  exists recent,
    result (install w h st) = Ret tt
    /\ statuses (final (install w h st))
       = ["Complete"; "Complete"; "Failed"; "Pending"; "Pending"]
    /\ trace (install w h st)
       = EvSockConnect (Py.strip (hostname_var st)) (port_var st) 10
         :: EvUrlOpen GITHUB_REPO_URL 30
         :: remote_trace w st install_script 300
         ++ [EvErrorDialog
               (failure_message "Failed to install Pi service" recent)]
    /\ is_installing (final (install w h st)) = false.
Proof.
  intros Hui Hconn Hurl Hbody Hrc.
  assert (Hc : reachable (w_connect_ex w (Py.strip (hostname_var st))
                            (port_var st) 10) = true)
    by (rewrite Hconn; reflexivity).
  pose proof (downloaded_ok content Hurl Hbody) as Hd.
  apply Z.eqb_neq in Hrc.
  unfold install. open_method. rewrite !modify_run.
  cbn. rewrite (pending_labels st Hui), reset_retouch. exec.
  step_connect. cbn. rewrite Hc. exec.
  step_download. cbn. rewrite Hd. exec.
  step_install. cbn. rewrite Hrc. exec. rewrite !modify_run. cbn.
  rewrite ?app_nil_r. eexists. repeat split.
Qed.


Ltac in_log :=
  cbn;
  repeat (apply elem_of_app;
          first [ right;
                  solve [repeat first [ apply list_elem_of_here
                                      | apply list_elem_of_further ]]
                | left ]).

Lemma install_service_success h st content :
  ui_ready st ->
  w_connect_ex w (Py.strip (hostname_var st)) (port_var st) 10 = Ret 0 ->
  w_urlopen w GITHUB_REPO_URL 30 = Ret content ->
  Py.truthy (Py.strip content) = true ->
  (remote_result w st install_script 300).1.1 = 0 ->
  let host := Py.strip (hostname_var st) in
  let url := "http://" +:+ h +:+ ":" +:+ Py.str PORTAL_PORT in
  let question := completion_message url in
  exists (created : bool) trV trS,
    result (install w h st) = Ret tt
    /\ statuses (final (install w h st))
       = ["Complete"; "Complete"; "Complete"; "Complete";
          if created then "Complete" else "Failed"]
    /\ trace (install w h st)
       = EvSockConnect host (port_var st) 10
         :: EvUrlOpen GITHUB_REPO_URL 30
         :: remote_trace w st install_script 300
         ++ EvSleep 5 :: EvSockConnect host PORTAL_PORT 15 :: trV
         ++ trS
         ++ EvMessageBox AskYesNo "Installation Complete" question
            :: (if w_askyesno w "Installation Complete" question
                then [EvOpenBrowser url] else [])
    /\ quiet trV /\ probes trV = []
    /\ shortcuts_only trS
    /\ (create_desktop_shortcut st = false ->
        create_start_menu st = false -> created = false /\ trS = [])
    /\ (created = false ->
        "Warning: Some shortcuts may not have been created"
          ∈ full_log (final (install w h st)))
    /\ ("DreamPi Link Cable Web Server is now available at: " +:+ url)
         ∈ full_log (final (install w h st))
    /\ is_installing (final (install w h st)) = false.
Proof.
  intros Hui Hconn Hurl Hbody Hrc host url question. subst host url question.
  assert (Hc : reachable (w_connect_ex w (Py.strip (hostname_var st))
                            (port_var st) 10) = true)
    by (rewrite Hconn; reflexivity).
  pose proof (downloaded_ok content Hurl Hbody) as Hd.
  apply Z.eqb_eq in Hrc.
  unfold install. open_method. rewrite !modify_run.
  cbn. rewrite (pending_labels st Hui), reset_retouch. exec.
  step_connect. cbn. rewrite Hc. exec.
  step_download. cbn. rewrite Hd. exec.
  step_install. cbn. rewrite Hrc. exec.
  step_verify. exec.
  step_shortcuts. cbn in HnoneS. exec.
  exists created, trV, trS.
  destruct created; exec;
    destruct (create_desktop_shortcut st); exec;
    destruct (create_start_menu st); exec;
    destruct (w_askyesno w _ _); exec; rewrite !modify_run; cbn;
    rewrite ?app_nil_r, <- ?app_assoc; cbn;
    (repeat split; try assumption; try apply HonlyS; try apply HquietV;
     try (intros; discriminate); try (apply HnoneS; assumption);
     try (intros _; in_log); try in_log).
Qed.

(** *** Reading a trace *)

Lemma omap_cons_app {A B} (f : A -> option B) e tr :
  omap f (e :: tr) = omap f [e] ++ omap f tr.
Proof. apply (omap_app f [e] tr). Qed.

(** Splits every observation of the goal along the trace it reads. *)
Ltac observe :=
  unfold shortcuts_only, quiet, probes, popens, failure_reports,
    success_reports, shortcut_requests in *;
  repeat first
    [ rewrite omap_app
    | match goal with
      | |- context [omap ?f (?e :: ?tr)] =>
          lazymatch tr with
          | [] => fail
          | _ => rewrite (omap_cons_app f e tr)
          end
      end ].

Lemma remote_result_of_run st command timeout r :
  result (execute_ssh_command w command timeout st) = Ret r ->
  remote_result w st command timeout = r.
Proof.
  rewrite execute_ssh_command_run. unfold result. cbn. congruence.
Qed.

(** *** The claims on the install workflow *)

(** C1. When the probe of the Connect step does not answer 0 (the name does
    not resolve, or the SSH port cannot be connected to within the 10 second
    timeout), the install run ends at that step: Connect is marked Failed,
    the four later steps stay Pending, the only interactions are the probe
    and the failure dialog, and no remote command is started. *)
Theorem unreachable_host_stops_at_connect h st :
  ui_ready st ->
  w_connect_ex w (Py.strip (hostname_var st)) (port_var st) 10 <> Ret 0 ->
  let run := install w h st in
  result run = Ret tt
  /\ statuses (final run)
     = ["Failed"; "Pending"; "Pending"; "Pending"; "Pending"]
  /\ (exists recent,
        trace run
        = [EvSockConnect (Py.strip (hostname_var st)) (port_var st) 10;
           EvErrorDialog
             (failure_message "Failed to connect to Raspberry Pi" recent)])
  /\ popens (trace run) = []
  /\ success_reports (trace run) = []
  /\ is_installing (final run) = false.
Proof.
  intros Hui Hconn run. subst run.
  destruct (install_connect_failure h st Hui Hconn)
    as (recent & Hr & Hs & Ht & Hi).
  rewrite Ht. repeat split; try assumption.
  exists recent. reflexivity.
Qed.

(** C2. When the first two steps succeed and the remote executor returns a
    non-zero exit code for the install script, the run ends as a failure at
    the Install step: Install is marked Failed, Verify and Shortcuts stay
    Pending, the Verify probe and the shortcut collaborators are never
    reached, and the failure dialog is the only report. *)
Theorem install_script_failure_aborts h st content rc out err :
  ui_ready st ->
  w_connect_ex w (Py.strip (hostname_var st)) (port_var st) 10 = Ret 0 ->
  w_urlopen w GITHUB_REPO_URL 30 = Ret content ->
  Py.truthy (Py.strip content) = true ->
  result (execute_ssh_command w install_script 300 st) = Ret (rc, out, err) ->
  rc <> 0 ->
  let run := install w h st in
  result run = Ret tt
  /\ statuses (final run)
     = ["Complete"; "Complete"; "Failed"; "Pending"; "Pending"]
  /\ probes (trace run) = [(Py.strip (hostname_var st), port_var st, 10)]
  /\ shortcut_requests (trace run) = []
  /\ success_reports (trace run) = []
  /\ (exists recent,
        failure_reports (trace run)
        = [failure_message "Failed to install Pi service" recent])
  /\ is_installing (final run) = false.
Proof.
  intros Hui Hconn Hurl Hbody Hssh Hrc run. subst run.
  apply remote_result_of_run in Hssh.
  destruct (install_service_failure h st content Hui Hconn Hurl Hbody)
    as (recent & Hr & Hs & Ht & Hi).
  { rewrite Hssh. exact Hrc. }
  destruct (remote_trace_quiet w st install_script 300) as ((F & S & C) & P).
  rewrite Ht. split; [exact Hr|]. split; [exact Hs|].
  observe. rewrite F, S, C, P. cbn.
  repeat split; try assumption. exists recent. reflexivity.
Qed.

Lemma portal_url_1999 h :
  "http://" +:+ h +:+ ":" +:+ Py.str PORTAL_PORT = "http://" +:+ h +:+ ":1999".
Proof. reflexivity. Qed.

Lemma status_after_relabel i s col L n lg c st :
  (i < length L)%nat ->
  statuses (retouch (relabel i s col L) n lg c st) !! i = Some s.
Proof.
  intros Hi. unfold statuses. cbn. rewrite list_lookup_fmap.
  apply relabel_lookup. exact Hi.
Qed.

(** What the run reports once the Install step has succeeded, whatever the
    Verify probe, the status query and the shortcut collaborators answer. *)
Lemma install_success_reports h st content out err :
  ui_ready st ->
  w_connect_ex w (Py.strip (hostname_var st)) (port_var st) 10 = Ret 0 ->
  w_urlopen w GITHUB_REPO_URL 30 = Ret content ->
  Py.truthy (Py.strip content) = true ->
  result (execute_ssh_command w install_script 300 st) = Ret (0, out, err) ->
  let url := "http://" +:+ h +:+ ":1999" in
  let run := install w h st in
  result run = Ret tt
  /\ take 4 (statuses (final run))
     = ["Complete"; "Complete"; "Complete"; "Complete"]
  /\ failure_reports (trace run) = []
  /\ success_reports (trace run) = [completion_message url]
  /\ (statuses (final run) !! 4%nat = Some "Failed" ->
      "Warning: Some shortcuts may not have been created"
        ∈ full_log (final run))
  /\ ("DreamPi Link Cable Web Server is now available at: " +:+ url)
       ∈ full_log (final run)
  /\ (w_askyesno w "Installation Complete" (completion_message url) = true ->
      EvOpenBrowser url ∈ trace run)
  /\ is_installing (final run) = false
  /\ (create_desktop_shortcut st = false ->
      create_start_menu st = false ->
      statuses (final run) !! 4%nat = Some "Failed"
      /\ shortcut_requests (trace run) = []).
Proof.
  intros Hui Hconn Hurl Hbody Hssh url run. subst url run.
  apply remote_result_of_run in Hssh.
  destruct (install_service_success h st content Hui Hconn Hurl Hbody)
    as (created & trV & trS & Hr & Hs & Ht & HqV & HpV & HoS & Hnone
        & Hwarn & Havail & Hi).
  { rewrite Hssh. reflexivity. }
  rewrite portal_url_1999 in Ht, Havail.
  destruct (remote_trace_quiet w st install_script 300) as ((F & S & C) & P).
  destruct HqV as (FV & SV & CV). destruct HoS as (PS & OS & FS & SS).
  rewrite Ht, Hs. split; [exact Hr|]. split; [reflexivity|].
  split; [|split; [|split; [|split; [|split; [|split]]]]].
  - observe. rewrite F, FV, FS. cbn.
    destruct (w_askyesno w _ _); reflexivity.
  - observe. rewrite S, SV, SS. cbn.
    destruct (w_askyesno w _ _); reflexivity.
  - intros Hfailed. apply Hwarn. destruct created; [discriminate Hfailed|reflexivity].
  - exact Havail.
  - intros ->. rewrite !app_comm_cons, !app_assoc. apply elem_of_app. right.
    apply list_elem_of_further, list_elem_of_here.
  - exact Hi.
  - intros Hd Hm. destruct (Hnone Hd Hm) as [-> ->]. split; [reflexivity|].
    observe. rewrite C, CV. cbn. destruct (w_askyesno w _ _); reflexivity.
Qed.

(** C3. [verify_installation] returns success whatever the probe, the
    status query or an exception inside it gives, and marks step 4 Complete;
    a run whose Install step succeeded therefore always ends with the
    success report and without a failure report. *)
Theorem verify_outcome_never_fails_the_run :
  (forall st,
     exists st' tr,
       verify_installation w st = (Ret true, st', tr)
       /\ ((3 < length (step_labels st))%nat ->
           statuses st' !! 3%nat = Some "Complete"))
  /\ (forall h st content out err,
        ui_ready st ->
        w_connect_ex w (Py.strip (hostname_var st)) (port_var st) 10 = Ret 0 ->
        w_urlopen w GITHUB_REPO_URL 30 = Ret content ->
        Py.truthy (Py.strip content) = true ->
        result (execute_ssh_command w install_script 300 st)
        = Ret (0, out, err) ->
        let run := install w h st in
        result run = Ret tt
        /\ take 4 (statuses (final run))
           = ["Complete"; "Complete"; "Complete"; "Complete"]
        /\ failure_reports (trace run) = []
        /\ success_reports (trace run)
           = [completion_message ("http://" +:+ h +:+ ":1999")]).
Proof.
  split.
  - intros st.
    destruct (verify_installation_retouch (step_labels st) (progress_bar st)
                (full_log st) (install_script_content st) st)
      as (col & n & lg & tr & E & _ & _).
    rewrite retouch_eta in E. rewrite E. eexists _, _. split; [reflexivity|].
    apply status_after_relabel.
  - intros h st content out err Hui Hconn Hurl Hbody Hssh run. subst run.
    destruct (install_success_reports h st content out err
                Hui Hconn Hurl Hbody Hssh)
      as (Hr & Hs & Hf & Hok & _).
    auto.
Qed.

Arguments install : simpl never.

(** A click on Install with a usable configuration, while nothing runs,
    starts the worker with the stripped hostname. *)
Lemma start_installation_spawns st :
  is_installing st = false ->
  Py.truthy (Py.strip (hostname_var st)) = true ->
  Py.truthy (Py.strip (username_var st)) = true ->
  start_installation w st
  = (result (install w (Py.strip (hostname_var st)) st),
     final (install w (Py.strip (hostname_var st)) st),
     EvThreadStart InstallWorker
       :: trace (install w (Py.strip (hostname_var st)) st)).
Proof.
  intros Hbusy Hh Hu. unfold start_installation. open_method. cbn.
  rewrite Hbusy, Hh, Hu. cbn.
  destruct (install w _ st) as [[r s] t]. reflexivity.
Qed.

(** C6. In a run started from the Install button that gets past the Install
    step, a failed Shortcuts step (the collaborators returned failure or
    raised) only adds a warning line to the log: the run ends with the
    success report and no failure report, and the address it reports for
    hostname [h] is [http://h:1999]. *)
Theorem shortcut_failure_is_only_a_warning st content out err :
  ui_ready st ->
  is_installing st = false ->
  Py.truthy (Py.strip (hostname_var st)) = true ->
  Py.truthy (Py.strip (username_var st)) = true ->
  w_connect_ex w (Py.strip (hostname_var st)) (port_var st) 10 = Ret 0 ->
  w_urlopen w GITHUB_REPO_URL 30 = Ret content ->
  Py.truthy (Py.strip content) = true ->
  result (execute_ssh_command w install_script 300 st) = Ret (0, out, err) ->
  let h := Py.strip (hostname_var st) in
  let url := "http://" +:+ h +:+ ":1999" in
  let run := start_installation w st in
  result run = Ret tt
  /\ failure_reports (trace run) = []
  /\ success_reports (trace run) = [completion_message url]
  /\ (statuses (final run) !! 4%nat = Some "Failed" ->
      "Warning: Some shortcuts may not have been created"
        ∈ full_log (final run))
  /\ ("DreamPi Link Cable Web Server is now available at: " +:+ url)
       ∈ full_log (final run)
  /\ (w_askyesno w "Installation Complete" (completion_message url) = true ->
      EvOpenBrowser url ∈ trace run)
  /\ is_installing (final run) = false.
Proof.
  intros Hui Hbusy Hh Hu Hconn Hurl Hbody Hssh h url run. subst h url run.
  rewrite (start_installation_spawns st Hbusy Hh Hu).
  destruct (install_success_reports (Py.strip (hostname_var st)) st content
              out err Hui Hconn Hurl Hbody Hssh)
    as (Hr & Hs & Hf & Hok & Hwarn & Havail & Hopen & Hi & _).
  unfold result, final, trace in *. cbn.
  split; [exact Hr|].
  split; [observe; cbn; exact Hf|].
  split; [observe; cbn; exact Hok|].
  split; [exact Hwarn|].
  split; [exact Havail|].
  split; [|exact Hi].
  intros Hyes. apply list_elem_of_further. apply Hopen. exact Hyes.
Qed.

(** C10. With both shortcut options unselected, [create_windows_shortcuts]
    asks for no shortcut, returns failure and marks step 5 Failed; a run that
    reaches it still ends with the success report. *)
Theorem no_shortcut_selected_marks_step_failed :
  (forall st,
     create_desktop_shortcut st = false ->
     create_start_menu st = false ->
     exists st',
       create_windows_shortcuts w st = (Ret false, st', [])
       /\ ((4 < length (step_labels st))%nat ->
           statuses st' !! 4%nat = Some "Failed"))
  /\ (forall h st content out err,
        ui_ready st ->
        create_desktop_shortcut st = false ->
        create_start_menu st = false ->
        w_connect_ex w (Py.strip (hostname_var st)) (port_var st) 10 = Ret 0 ->
        w_urlopen w GITHUB_REPO_URL 30 = Ret content ->
        Py.truthy (Py.strip content) = true ->
        result (execute_ssh_command w install_script 300 st)
        = Ret (0, out, err) ->
        let run := install w h st in
        result run = Ret tt
        /\ statuses (final run) !! 4%nat = Some "Failed"
        /\ shortcut_requests (trace run) = []
        /\ failure_reports (trace run) = []
        /\ success_reports (trace run)
           = [completion_message ("http://" +:+ h +:+ ":1999")]).
Proof.
  split.
  - intros st Hd Hm.
    destruct (create_windows_shortcuts_retouch (step_labels st)
                (progress_bar st) (full_log st) (install_script_content st) st)
      as (b & n & lg & tr & E & _ & Hnone).
    rewrite retouch_eta in E. destruct (Hnone Hd Hm) as [-> ->].
    rewrite E. eexists. split; [reflexivity|].
    apply status_after_relabel.
  - intros h st content out err Hui Hd Hm Hconn Hurl Hbody Hssh run. subst run.
    destruct (install_success_reports h st content out err
                Hui Hconn Hurl Hbody Hssh)
      as (Hr & _ & Hf & Hok & _ & _ & _ & _ & Hnone).
    destruct (Hnone Hd Hm) as [Hfailed Hreq]. auto.
Qed.

(** *** The claims on the remote executor *)

(** The world that differs from [w] only in that the child process starts
    and ends with the given exit code and output. *)
Definition remote_command_ends (rc : Z) (out err : string) : World :=
  mkWorld (w_gethostbyname w) (w_connect_ex w) (w_urlopen w) (w_which_sshpass w)
    (fun _ _ => Ret tt) (fun _ _ => Finished rc out err) (w_drain w)
    (w_desktop_shortcut w) (w_start_menu_shortcut w) (w_askyesno w)
    (w_strftime w) (w_settings_file w).


(** An option pair [-o opt] of a command line. *)
Definition has_option (opt : string) (argv : list string) : Prop :=
  exists before after, argv = before ++ "-o" :: opt :: after.

(** C8. Whatever the command and the timeout, the one child process that
    [execute_ssh_command] starts is given the options that switch host-key
    checking off and the known-hosts file to /dev/null, that prefer password
    authentication and that refuse public-key authentication. *)
Theorem ssh_options_are_fixed command timeout st :
  let argv := full_cmd w st command timeout in
  popens (trace (execute_ssh_command w command timeout st)) = [argv]
  /\ has_option "StrictHostKeyChecking=no" argv
  /\ has_option "UserKnownHostsFile=/dev/null" argv
  /\ has_option "PreferredAuthentications=password" argv
  /\ has_option "PubkeyAuthentication=no" argv.
Proof.
  intros argv. subst argv. rewrite execute_ssh_command_run. unfold trace. cbn.
  split; [apply remote_trace_popens|].
  unfold has_option, full_cmd, ssh_cmd.
  destruct (w_which_sshpass w); repeat split.
  - exists ["sshpass"; "-p"; password_var st; "ssh"]. eexists. reflexivity.
  - exists ["sshpass"; "-p"; password_var st; "ssh";
            "-o"; "StrictHostKeyChecking=no"]. eexists. reflexivity.
  - exists ["sshpass"; "-p"; password_var st; "ssh";
            "-o"; "StrictHostKeyChecking=no";
            "-o"; "UserKnownHostsFile=/dev/null"]. eexists. reflexivity.
  - exists ["sshpass"; "-p"; password_var st; "ssh";
            "-o"; "StrictHostKeyChecking=no";
            "-o"; "UserKnownHostsFile=/dev/null";
            "-o"; "PreferredAuthentications=password"]. eexists. reflexivity.
  - exists ["ssh"]. eexists. reflexivity.
  - exists ["ssh"; "-o"; "StrictHostKeyChecking=no"]. eexists. reflexivity.
  - exists ["ssh"; "-o"; "StrictHostKeyChecking=no";
            "-o"; "UserKnownHostsFile=/dev/null"]. eexists. reflexivity.
  - exists ["ssh"; "-o"; "StrictHostKeyChecking=no";
            "-o"; "UserKnownHostsFile=/dev/null";
            "-o"; "PreferredAuthentications=password"]. eexists. reflexivity.
Qed.

(** *** The busy guard *)

(** C5. With the busy flag set, [start_installation] returns at once: no
    worker is started and the installer is unchanged, but nothing is shown
    to the user either, whereas [start_uninstall] in the same state shows
    its warning box. *)
Theorem busy_install_request_is_silent st :
  let busy := set_is_installing true st in
  start_installation w busy = (Ret tt, busy, [])
  /\ start_uninstall w busy
     = (Ret tt, busy,
        [EvMessageBox ShowWarning "Installation in Progress"
           "Please wait for the current installation to complete."]).
Proof.
  intros busy. subst busy.
  unfold start_installation, start_uninstall, showbox. open_method. cbn.
  split; reflexivity.
Qed.

(** *** The connectivity probes *)

Lemma log_run m st :
  log m st = (Ret tt, set_full_log (full_log st ++ [m]) st, []).
Proof. reflexivity. Qed.

Ltac exec_raw := repeat first [rewrite log_run | rewrite modify_run | progress cbn].

Arguments test : simpl never.

(** C7. Each caller probes at most once, with its own timeout: 10 seconds
    in [connect_to_pi], 15 seconds in [verify_installation] (on the portal
    port), and 5 seconds in the connection test, which probes only when the
    hostname is not blank and resolves. *)
Theorem probe_timeouts st :
  let host := Py.strip (hostname_var st) in
  let port := port_var st in
  probes (trace (connect_to_pi w st)) = [(host, port, 10)]
  /\ probes (trace (verify_installation w st)) = [(host, PORTAL_PORT, 15)]
  /\ probes (trace (test w st))
     = (if Py.truthy host
        then match w_gethostbyname w host with
             | Ret _ => [(host, port, 5)]
             | Raise _ => []
             end
        else [])
  /\ trace (test_pi_connection w st)
     = EvThreadStart TestWorker :: trace (test w st).
Proof.
  intros host port. subst host port. split; [|split; [|split]].
  - destruct (connect_to_pi_retouch (step_labels st) (progress_bar st)
                (full_log st) (install_script_content st) st)
      as (n & lg & E).
    rewrite retouch_eta in E. rewrite E. reflexivity.
  - destruct (verify_installation_retouch (step_labels st) (progress_bar st)
                (full_log st) (install_script_content st) st)
      as (col & n & lg & tr & E & _ & Hp).
    rewrite retouch_eta in E. rewrite E. unfold trace. cbn.
    observe. rewrite Hp. reflexivity.
  - unfold test, gethostbyname, connect_ex, showbox. open_method. exec_raw.
    destruct (Py.truthy _); exec_raw; [|reflexivity].
    destruct (w_gethostbyname w _) as [[]|[[] msg]]; exec_raw;
      try reflexivity.
    destruct (w_connect_ex w _ _ _) as [z|[[] msg]]; exec_raw;
      try reflexivity.
    destruct (z =? 0); exec_raw; reflexivity.
  - unfold test_pi_connection. open_method. cbn.
    destruct (test w st) as [[r s] t]. reflexivity.
Qed.

(** *** Loading the settings *)

(** The settings file did not give a settings object. *)
Definition load_failed (f : SettingsFile) : Prop :=
  forall d, f <> JsonObject d.

(** C9. When the settings file is absent, unreadable or malformed,
    [__init__] keeps the built-in defaults, raises nothing and reports
    nothing; when it loads, every key it lacks gets its default. *)
Theorem load_settings_falls_back_to_defaults :
  (load_failed (w_settings_file w) -> init w = (Ret tt, fresh_installer, []))
  /\ (hostname_var fresh_installer = "dreampi.local"
      /\ username_var fresh_installer = "pi"
      /\ password_var fresh_installer = "raspberry"
      /\ port_var fresh_installer = 22)
  /\ (forall d,
        w_settings_file w = JsonObject d ->
        result (init w) = Ret tt
        /\ trace (init w) = []
        /\ full_log (final (init w)) = []
        /\ hostname_var (final (init w)) = default "dreampi.local" (d_hostname d)
        /\ username_var (final (init w)) = default "pi" (d_username d)
        /\ password_var (final (init w)) = default "raspberry" (d_password d)
        /\ port_var (final (init w)) = default 22 (d_port d)).
Proof.
  split; [|split].
  - intros Hfail. unfold init, load_settings. open_method.
    destruct (w_settings_file w) as [| | | |d]; try reflexivity.
    destruct (Hfail d eq_refl).
  - repeat split.
  - intros d Hd. unfold init, load_settings. open_method. rewrite Hd.
    exec_raw. repeat split.
Qed.

End StepSpecs.

(** * Concrete runs *)

(** An installer as [__init__] leaves it when no settings file exists:
    default connection settings and the five status labels of [setup_ui]. *)
Definition sample_installer : Installer :=
  set_step_labels
    ((fun _ => mkLabel "Pending" warning_color) <$> installation_steps)
    fresh_installer.

(** The same installer with both shortcut options unselected. *)
Definition installer_without_shortcuts : Installer :=
  mkInstaller (hostname_var sample_installer) (username_var sample_installer)
    (password_var sample_installer) (port_var sample_installer)
    false false (is_installing sample_installer)
    (step_labels sample_installer) (progress_bar sample_installer)
    (full_log sample_installer) (uninstall_output sample_installer)
    (install_button sample_installer) (uninstall_button sample_installer)
    (connection_status_label sample_installer)
    (install_script_content sample_installer).

(** A world in which every interaction succeeds. *)
Definition friendly_world : World :=
  {| w_gethostbyname := fun _ => Ret tt;
     w_connect_ex := fun _ _ _ => Ret 0;
     w_urlopen := fun _ _ => Ret "#!/bin/bash";
     w_which_sshpass := false;
     w_popen := fun _ _ => Ret tt;
     w_communicate := fun _ _ => Finished 0 "=== Installation Complete ===" "";
     w_drain := fun _ => Ret ("", "");
     w_desktop_shortcut := fun _ => ([], Ret true);
     w_start_menu_shortcut := fun _ => ([], Ret true);
     w_askyesno := fun _ _ => true;
     w_strftime := "2025-01-01 12:00:00";
     w_settings_file := FileAbsent |}.

(** The hostname does not resolve. *)
Definition unreachable_world : World :=
  {| w_gethostbyname := fun _ => Raise (mkExn GaiError "Name or service not known");
     w_connect_ex :=
       fun _ _ _ => Raise (mkExn GaiError "Name or service not known");
     w_urlopen := w_urlopen friendly_world;
     w_which_sshpass := false;
     w_popen := w_popen friendly_world;
     w_communicate := w_communicate friendly_world;
     w_drain := w_drain friendly_world;
     w_desktop_shortcut := w_desktop_shortcut friendly_world;
     w_start_menu_shortcut := w_start_menu_shortcut friendly_world;
     w_askyesno := w_askyesno friendly_world;
     w_strftime := w_strftime friendly_world;
     w_settings_file := FileAbsent |}.

(** The remote install script exits with code 1. *)
Definition failing_script_world : World :=
  {| w_gethostbyname := w_gethostbyname friendly_world;
     w_connect_ex := w_connect_ex friendly_world;
     w_urlopen := w_urlopen friendly_world;
     w_which_sshpass := false;
     w_popen := w_popen friendly_world;
     w_communicate :=
       fun _ _ => Finished 1 "" "ERROR: Failed to download installation script";
     w_drain := w_drain friendly_world;
     w_desktop_shortcut := w_desktop_shortcut friendly_world;
     w_start_menu_shortcut := w_start_menu_shortcut friendly_world;
     w_askyesno := w_askyesno friendly_world;
     w_strftime := w_strftime friendly_world;
     w_settings_file := FileAbsent |}.

(** The SSH port answers, the portal port refuses the connection, and the
    status query cannot start a child process. *)
Definition silent_portal_world : World :=
  {| w_gethostbyname := w_gethostbyname friendly_world;
     w_connect_ex := fun _ port _ => if port =? PORTAL_PORT then Ret 111 else Ret 0;
     w_urlopen := w_urlopen friendly_world;
     w_which_sshpass := false;
     w_popen :=
       fun argv _ =>
         if decide (last argv = Some status_command)
         then Raise (Exception "No such file or directory: 'ssh'")
         else Ret tt;
     w_communicate := w_communicate friendly_world;
     w_drain := w_drain friendly_world;
     w_desktop_shortcut := w_desktop_shortcut friendly_world;
     w_start_menu_shortcut := w_start_menu_shortcut friendly_world;
     w_askyesno := w_askyesno friendly_world;
     w_strftime := w_strftime friendly_world;
     w_settings_file := FileAbsent |}.

(** The desktop shortcut cannot be created and the Start Menu collaborator
    raises. *)
Definition no_shortcut_world : World :=
  {| w_gethostbyname := w_gethostbyname friendly_world;
     w_connect_ex := w_connect_ex friendly_world;
     w_urlopen := w_urlopen friendly_world;
     w_which_sshpass := false;
     w_popen := w_popen friendly_world;
     w_communicate := w_communicate friendly_world;
     w_drain := w_drain friendly_world;
     w_desktop_shortcut :=
       fun _ => (["URL file desktop shortcut failed: Permission denied"], Ret false);
     w_start_menu_shortcut := fun _ => ([], Raise (Exception "Access is denied"));
     w_askyesno := fun _ _ => false;
     w_strftime := w_strftime friendly_world;
     w_settings_file := FileAbsent |}.

(** The remote command never ends; the drained output is one line. *)
Definition hanging_world : World :=
  {| w_gethostbyname := w_gethostbyname friendly_world;
     w_connect_ex := w_connect_ex friendly_world;
     w_urlopen := w_urlopen friendly_world;
     w_which_sshpass := true;
     w_popen := w_popen friendly_world;
     w_communicate := fun _ _ => TimeoutExpired;
     w_drain := fun _ => Ret ("Running installation script...", "");
     w_desktop_shortcut := w_desktop_shortcut friendly_world;
     w_start_menu_shortcut := w_start_menu_shortcut friendly_world;
     w_askyesno := w_askyesno friendly_world;
     w_strftime := w_strftime friendly_world;
     w_settings_file := FileAbsent |}.

(** A settings file that only gives the hostname. *)
Definition partial_settings_world : World :=
  {| w_gethostbyname := w_gethostbyname friendly_world;
     w_connect_ex := w_connect_ex friendly_world;
     w_urlopen := w_urlopen friendly_world;
     w_which_sshpass := false;
     w_popen := w_popen friendly_world;
     w_communicate := w_communicate friendly_world;
     w_drain := w_drain friendly_world;
     w_desktop_shortcut := w_desktop_shortcut friendly_world;
     w_start_menu_shortcut := w_start_menu_shortcut friendly_world;
     w_askyesno := w_askyesno friendly_world;
     w_strftime := w_strftime friendly_world;
     w_settings_file :=
       JsonObject (mkSettings (Some "192.168.1.50") None None None) |}.

(** ** The claims at these runs *)

Lemma unreachable_host_witness :
  w_connect_ex unreachable_world "dreampi.local" 22 10 <> Ret 0
  /\ statuses (final (install unreachable_world "dreampi.local" sample_installer))
     = ["Failed"; "Pending"; "Pending"; "Pending"; "Pending"]
  /\ popens (trace (install unreachable_world "dreampi.local" sample_installer))
     = [].
Proof.
  assert (H : w_connect_ex unreachable_world
                (Py.strip (hostname_var sample_installer))
                (port_var sample_installer) 10 <> Ret 0)
    by (vm_compute; discriminate).
  split; [exact H|].
  pose proof (unreachable_host_stops_at_connect unreachable_world
                "dreampi.local" sample_installer eq_refl H) as T.
  cbv zeta in T. destruct T as (_ & Hs & _ & Hp & _).
  split; assumption.
Defined.

Lemma install_script_failure_witness :
  result (execute_ssh_command failing_script_world install_script 300
            sample_installer)
  = Ret (1, "", "ERROR: Failed to download installation script")
  /\ statuses (final (install failing_script_world "dreampi.local"
                        sample_installer))
     = ["Complete"; "Complete"; "Failed"; "Pending"; "Pending"]
  /\ success_reports (trace (install failing_script_world "dreampi.local"
                               sample_installer)) = [].
Proof.
  assert (H : result (execute_ssh_command failing_script_world install_script
                        300 sample_installer)
              = Ret (1, "", "ERROR: Failed to download installation script"))
    by (vm_compute; reflexivity).
  split; [exact H|].
  pose proof (install_script_failure_aborts failing_script_world
                "dreampi.local" sample_installer "#!/bin/bash" 1 ""
                "ERROR: Failed to download installation script"
                eq_refl eq_refl eq_refl eq_refl H) as T.
  cbv zeta in T. destruct T as (_ & Hs & _ & _ & Hok & _).
  { discriminate. }
  split; assumption.
Defined.

Lemma verify_outcome_witness :
  probes (trace (verify_installation silent_portal_world sample_installer))
  = [("dreampi.local", 1999, 15)]
  /\ result (verify_installation silent_portal_world sample_installer)
     = Ret true
  /\ success_reports (trace (install silent_portal_world "dreampi.local"
                               sample_installer))
     = [completion_message "http://dreampi.local:1999"]
  /\ failure_reports (trace (install silent_portal_world "dreampi.local"
                               sample_installer)) = [].
Proof.
  split; [vm_compute; reflexivity|].
  destruct (verify_outcome_never_fails_the_run silent_portal_world)
    as [Hverify Hrun].
  split.
  - destruct (Hverify sample_installer) as (st' & tr & E & _).
    rewrite E. reflexivity.
  - pose proof (Hrun "dreampi.local" sample_installer "#!/bin/bash"
                  "=== Installation Complete ===" ""
                  eq_refl eq_refl eq_refl eq_refl eq_refl) as T.
    cbv zeta in T. destruct T as (_ & _ & Hf & Hok).
    split; assumption.
Defined.


Lemma shortcut_failure_witness :
  statuses (final (start_installation no_shortcut_world sample_installer))
    !! 4%nat = Some "Failed"
  /\ "Warning: Some shortcuts may not have been created"
       ∈ full_log (final (start_installation no_shortcut_world sample_installer))
  /\ success_reports (trace (start_installation no_shortcut_world
                               sample_installer))
     = [completion_message "http://dreampi.local:1999"]
  /\ failure_reports (trace (start_installation no_shortcut_world
                               sample_installer)) = [].
Proof.
  assert (Hfailed :
            statuses (final (start_installation no_shortcut_world
                               sample_installer)) !! 4%nat = Some "Failed")
    by (vm_compute; reflexivity).
  split; [exact Hfailed|].
  pose proof (shortcut_failure_is_only_a_warning no_shortcut_world
                sample_installer "#!/bin/bash"
                "=== Installation Complete ===" ""
                eq_refl eq_refl eq_refl eq_refl eq_refl eq_refl eq_refl eq_refl)
    as T.
  cbv zeta in T. destruct T as (_ & Hf & Hok & Hwarn & _).
  split; [exact (Hwarn Hfailed)|]. split; assumption.
Defined.

Lemma no_shortcut_selected_witness :
  result (create_windows_shortcuts friendly_world installer_without_shortcuts)
  = Ret false
  /\ statuses (final (install friendly_world "dreampi.local"
                        installer_without_shortcuts)) !! 4%nat
     = Some "Failed"
  /\ shortcut_requests (trace (install friendly_world "dreampi.local"
                                 installer_without_shortcuts)) = []
  /\ success_reports (trace (install friendly_world "dreampi.local"
                               installer_without_shortcuts))
     = [completion_message "http://dreampi.local:1999"].
Proof.
  destruct (no_shortcut_selected_marks_step_failed friendly_world)
    as [Hstep Hrun].
  split.
  - destruct (Hstep installer_without_shortcuts eq_refl eq_refl)
      as (st' & E & _).
    rewrite E. reflexivity.
  - pose proof (Hrun "dreampi.local" installer_without_shortcuts "#!/bin/bash"
                  "=== Installation Complete ===" ""
                  eq_refl eq_refl eq_refl eq_refl eq_refl eq_refl eq_refl) as T.
    cbv zeta in T. destruct T as (_ & Hs & Hreq & _ & Hok).
    repeat split; assumption.
Defined.

Lemma load_settings_witness :
  init unreachable_world = (Ret tt, fresh_installer, [])
  /\ hostname_var (final (init partial_settings_world)) = "192.168.1.50"
  /\ username_var (final (init partial_settings_world)) = "pi"
  /\ password_var (final (init partial_settings_world)) = "raspberry"
  /\ port_var (final (init partial_settings_world)) = 22.
Proof.
  split.
  - destruct (load_settings_falls_back_to_defaults unreachable_world)
      as (Hfail & _).
    apply Hfail. intros d. discriminate.
  - destruct (load_settings_falls_back_to_defaults partial_settings_world)
      as (_ & _ & Hload).
    destruct (Hload (mkSettings (Some "192.168.1.50") None None None) eq_refl)
      as (_ & _ & _ & Hh & Hu & Hp & Hn).
    repeat split; assumption.
Defined.

(** ** Scenarios of the specification *)

(** The SSH port refuses the connection. *)
Definition refused_world : World :=
  {| w_gethostbyname := w_gethostbyname friendly_world;
     w_connect_ex := fun _ _ _ => Ret 111;
     w_urlopen := w_urlopen friendly_world;
     w_which_sshpass := false;
     w_popen := w_popen friendly_world;
     w_communicate := w_communicate friendly_world;
     w_drain := w_drain friendly_world;
     w_desktop_shortcut := w_desktop_shortcut friendly_world;
     w_start_menu_shortcut := w_start_menu_shortcut friendly_world;
     w_askyesno := w_askyesno friendly_world;
     w_strftime := w_strftime friendly_world;
     w_settings_file := FileAbsent |}.

(** Everything succeeds: all five steps Complete, one success report for
    [http://dreampi.local:1999], the browser opened on it. *)
Example scenario_all_succeed :
  statuses (final (start_installation friendly_world sample_installer))
  = ["Complete"; "Complete"; "Complete"; "Complete"; "Complete"]
  /\ success_reports (trace (start_installation friendly_world sample_installer))
     = [completion_message "http://dreampi.local:1999"]
  /\ last (trace (start_installation friendly_world sample_installer))
     = Some (EvOpenBrowser "http://dreampi.local:1999")
  /\ probes (trace (start_installation friendly_world sample_installer))
     = [("dreampi.local", 22, 10); ("dreampi.local", 1999, 15)].
Proof. vm_compute. repeat split. Qed.

(** Port 22 refused: Connect Failed, and the log names the target. *)
Example scenario_port_refused :
  statuses (final (start_installation refused_world sample_installer))
  = ["Failed"; "Pending"; "Pending"; "Pending"; "Pending"]
  /\ "ERROR: Connection failed - Cannot connect to dreampi.local:22"
       ∈ full_log (final (start_installation refused_world sample_installer))
  /\ popens (trace (start_installation refused_world sample_installer)) = [].
Proof.
  split; [vm_compute; reflexivity|]. split; [|vm_compute; reflexivity].
  vm_compute. do 5 apply list_elem_of_further. apply list_elem_of_here.
Qed.

(** The command line of the status query, without and with [sshpass]. *)
Example scenario_status_query_command :
  popens (trace (execute_ssh_command friendly_world "uptime" 60 sample_installer))
  = [["ssh"; "-o"; "StrictHostKeyChecking=no";
      "-o"; "UserKnownHostsFile=/dev/null";
      "-o"; "PreferredAuthentications=password";
      "-o"; "PubkeyAuthentication=no";
      "-o"; "ConnectTimeout=30"; "-p"; "22"; "pi@dreampi.local"; "uptime"]]
  /\ take 3 (full_cmd hanging_world sample_installer "uptime" 5)
     = ["sshpass"; "-p"; "raspberry"]
  /\ full_cmd hanging_world sample_installer "uptime" 5 !! 13%nat
     = Some "ConnectTimeout=5".
Proof. vm_compute. repeat split. Qed.
(** * Further properties of the code *)

(** ** Reasoning along the structure of a method *)

(** The computation leaves the observation [p] of the installer as it was. *)
Definition keeps {A T} (p : Installer -> T) (m : M A) : Prop :=
  forall st, p (final (m st)) = p st.

(** The computation ends with a value in every state: no exception escapes. *)
Definition never_raises {A} (m : M A) : Prop :=
  forall st, exists a, result (m st) = Ret a.

(** Every interaction of the computation satisfies [P]. *)
Definition emits {A} (P : Event -> Prop) (m : M A) : Prop :=
  forall st, Forall P (trace (m st)).

(** The connection settings and the shortcut options. *)
Definition connection (st : Installer) : string * string * string * Z * bool * bool :=
  (hostname_var st, username_var st, password_var st, port_var st,
   create_desktop_shortcut st, create_start_menu st).

(** The widgets of the install tab that show progress. *)
Definition progress_display (st : Installer) : list Label * nat * Button :=
  (step_labels st, progress_bar st, install_button st).

(** The widgets of the uninstall tab. *)
Definition uninstall_display (st : Installer) : list string * Button :=
  (uninstall_output st, uninstall_button st).

Lemma keeps_ret {A T} (p : Installer -> T) (a : A) : keeps p (ret a).
Proof. intros st. reflexivity. Qed.

Lemma keeps_raise {A T} (p : Installer -> T) e : keeps p (@raise A e).
Proof. intros st. reflexivity. Qed.

Lemma keeps_get {T} (p : Installer -> T) : keeps p get.
Proof. intros st. reflexivity. Qed.

Lemma keeps_emit {T} (p : Installer -> T) e : keeps p (emit e).
Proof. intros st. reflexivity. Qed.

Lemma keeps_answer {A T} (p : Installer -> T) (o : Outcome A) : keeps p (answer o).
Proof. intros st. reflexivity. Qed.

Lemma keeps_modify {T} (p : Installer -> T) f :
  (forall st, p (f st) = p st) -> keeps p (modify f).
Proof. intros H st. apply H. Qed.

Lemma keeps_bind {A B T} (p : Installer -> T) (m : M A) (k : A -> M B) :
  keeps p m -> (forall a, keeps p (k a)) -> keeps p (bind m k).
Proof.
  intros Hm Hk st. specialize (Hm st). unfold final, bind in *.
  destruct (m st) as [[[a|e] s1] t1]; cbn in *; [|exact Hm].
  specialize (Hk a s1). unfold final in Hk.
  destruct (k a s1) as [[r s2] t2]; cbn in *. congruence.
Qed.

Lemma keeps_try_except {A T} (p : Installer -> T) (body : M A) handler :
  keeps p body -> (forall e, keeps p (handler e)) ->
  keeps p (try_except body handler).
Proof.
  intros Hm Hk st. specialize (Hm st). unfold final, try_except in *.
  destruct (body st) as [[[a|e] s1] t1]; cbn in *; [exact Hm|].
  specialize (Hk e s1). unfold final in Hk.
  destruct (handler e s1) as [[r s2] t2]; cbn in *. congruence.
Qed.

Lemma keeps_try_finally {A T} (p : Installer -> T) (body : M A) fin :
  keeps p body -> keeps p fin -> keeps p (try_finally body fin).
Proof.
  intros Hm Hk st. specialize (Hm st). unfold final, try_finally in *.
  destruct (body st) as [[r s1] t1]; cbn in *.
  specialize (Hk s1). unfold final in Hk.
  destruct (fin s1) as [[[[]|e] s2] t2]; cbn in *; congruence.
Qed.

Lemma keeps_for_each {A T} (p : Installer -> T) (l : list A) body :
  (forall x, keeps p (body x)) -> keeps p (for_each l body).
Proof.
  intros H. induction l as [|x l IH]; cbn.
  - apply keeps_ret.
  - apply keeps_bind; [apply H|intros _; exact IH].
Qed.

Lemma never_raises_ret {A} (a : A) : never_raises (ret a).
Proof. intros st. exists a. reflexivity. Qed.

Lemma never_raises_get : never_raises get.
Proof. intros st. exists st. reflexivity. Qed.

Lemma never_raises_emit e : never_raises (emit e).
Proof. intros st. exists tt. reflexivity. Qed.

Lemma never_raises_modify f : never_raises (modify f).
Proof. intros st. exists tt. reflexivity. Qed.

Lemma never_raises_bind {A B} (m : M A) (k : A -> M B) :
  never_raises m -> (forall a, never_raises (k a)) -> never_raises (bind m k).
Proof.
  intros Hm Hk st. destruct (Hm st) as [a Ha]. unfold result, bind in *.
  destruct (m st) as [[r s1] t1]; cbn in *. subst r.
  destruct (Hk a s1) as [b Hb]. unfold result in Hb.
  destruct (k a s1) as [[r s2] t2]; cbn in *. exists b. exact Hb.
Qed.

Lemma never_raises_try_except {A} (body : M A) handler :
  (forall e, never_raises (handler e)) -> never_raises (try_except body handler).
Proof.
  intros Hk st. unfold result, try_except.
  destruct (body st) as [[[a|e] s1] t1]; cbn; [exists a; reflexivity|].
  destruct (Hk e s1) as [b Hb]. unfold result in Hb.
  destruct (handler e s1) as [[r s2] t2]; cbn in *. exists b. exact Hb.
Qed.

Lemma never_raises_try_finally {A} (body : M A) fin :
  never_raises body -> never_raises fin -> never_raises (try_finally body fin).
Proof.
  intros Hm Hk st. destruct (Hm st) as [a Ha]. unfold result, try_finally in *.
  destruct (body st) as [[r s1] t1]; cbn in *. subst r.
  destruct (Hk s1) as [[] Hb]. unfold result in Hb.
  destruct (fin s1) as [[r s2] t2]; cbn in *. subst r. exists a. reflexivity.
Qed.

Lemma emits_ret {A} P (a : A) : emits P (ret a).
Proof. intros st. constructor. Qed.

Lemma emits_raise {A} P e : emits P (@raise A e).
Proof. intros st. constructor. Qed.

Lemma emits_get P : emits P get.
Proof. intros st. constructor. Qed.

Lemma emits_modify P f : emits P (modify f).
Proof. intros st. constructor. Qed.

Lemma emits_answer {A} P (o : Outcome A) : emits P (answer o).
Proof. intros st. constructor. Qed.

Lemma emits_emit (P : Event -> Prop) e : P e -> emits P (emit e).
Proof. intros H st. repeat constructor. exact H. Qed.

Lemma emits_bind {A B} P (m : M A) (k : A -> M B) :
  emits P m -> (forall a, emits P (k a)) -> emits P (bind m k).
Proof.
  intros Hm Hk st. specialize (Hm st). unfold trace, bind in *.
  destruct (m st) as [[[a|e] s1] t1]; cbn in *; [|exact Hm].
  specialize (Hk a s1). unfold trace in Hk.
  destruct (k a s1) as [[r s2] t2]; cbn in *.
  apply Forall_app. split; assumption.
Qed.

Lemma emits_try_except {A} P (body : M A) handler :
  emits P body -> (forall e, emits P (handler e)) ->
  emits P (try_except body handler).
Proof.
  intros Hm Hk st. specialize (Hm st). unfold trace, try_except in *.
  destruct (body st) as [[[a|e] s1] t1]; cbn in *; [exact Hm|].
  specialize (Hk e s1). unfold trace in Hk.
  destruct (handler e s1) as [[r s2] t2]; cbn in *.
  apply Forall_app. split; assumption.
Qed.

Lemma emits_try_finally {A} P (body : M A) fin :
  emits P body -> emits P fin -> emits P (try_finally body fin).
Proof.
  intros Hm Hk st. specialize (Hm st). unfold trace, try_finally in *.
  destruct (body st) as [[r s1] t1]; cbn in *.
  specialize (Hk s1). unfold trace in Hk.
  destruct (fin s1) as [[[[]|e] s2] t2]; cbn in *;
    apply Forall_app; split; assumption.
Qed.

Lemma emits_for_each {A} P (l : list A) body :
  (forall x, emits P (body x)) -> emits P (for_each l body).
Proof.
  intros H. induction l as [|x l IH]; cbn.
  - apply emits_ret.
  - apply emits_bind; [apply H|intros _; exact IH].
Qed.

Create HintDb frame.

(** Decomposes a [keeps] goal along the structure of the method. *)
Ltac frame :=
  repeat first
    [ apply keeps_ret | apply keeps_raise | apply keeps_get
    | apply keeps_emit | apply keeps_answer
    | apply keeps_modify; intros ?; reflexivity
    | apply keeps_bind; [|intros ?]
    | apply keeps_try_except; [|intros ?]
    | apply keeps_try_finally
    | apply keeps_for_each; intros ?
    | solve [auto 1 with frame nocore]
    | progress unfold log, uninstall_log, update_step_status, raise_if,
        log_output, showbox, askyesno, connect_ex, gethostbyname, urlopen,
        create_desktop_shortcut_file, create_start_menu_shortcut
    | lazymatch goal with
      | |- keeps _ (if ?b then _ else _) => destruct b
      | |- keeps _ (match ?x with _ => _ end) => destruct x
      end ].

(** Decomposes a [never_raises] goal in the same way; the body of a
    [try_except] is not looked at. *)
Ltac total :=
  repeat first
    [ apply never_raises_ret | apply never_raises_get | apply never_raises_emit
    | apply never_raises_modify
    | apply never_raises_bind; [|intros ?]
    | apply never_raises_try_except; intros ?
    | apply never_raises_try_finally
    | solve [auto 1 with frame nocore]
    | progress unfold log, uninstall_log, update_step_status, showbox, askyesno
    | lazymatch goal with
      | |- never_raises (if ?b then _ else _) => destruct b
      | |- never_raises (match ?x with _ => _ end) => destruct x
      end ].

(** Decomposes an [emits] goal; what is left is [P e] for the events [e]
    that the method can emit. *)
Ltac interactions :=
  repeat first
    [ apply emits_ret | apply emits_raise | apply emits_get
    | apply emits_modify | apply emits_answer
    | apply emits_emit
    | apply emits_bind; [|intros ?]
    | apply emits_try_except; [|intros ?]
    | apply emits_try_finally
    | apply emits_for_each; intros ?
    | solve [auto 1 with frame nocore]
    | progress unfold log, uninstall_log, update_step_status, raise_if,
        log_output, showbox, askyesno, connect_ex, gethostbyname, urlopen,
        create_desktop_shortcut_file, create_start_menu_shortcut
    | lazymatch goal with
      | |- emits _ (if ?b then _ else _) => destruct b
      | |- emits _ (match ?x with _ => _ end) => destruct x
      end ].

(** The worker threads that a trace starts. *)
Definition workers (tr : list Event) : list Worker :=
  omap (fun e => match e with
                 | EvThreadStart k => Some k
                 | _ => None
                 end) tr.

(** The message boxes of a trace. *)
Definition message_boxes (tr : list Event) : list (MsgKind * string * string) :=
  omap (fun e => match e with
                 | EvMessageBox kind title body => Some (kind, title, body)
                 | _ => None
                 end) tr.

(** An interaction with a child process. *)
Definition child_process_event (e : Event) : Prop :=
  match e with
  | EvPopen _ _ | EvCommunicate _ | EvKill => True
  | _ => False
  end.

(** An interaction of the connection test: a name lookup, a probe, a box. *)
Definition test_event (e : Event) : Prop :=
  match e with
  | EvGetHostByName _ | EvSockConnect _ _ _ | EvMessageBox _ _ _ => True
  | _ => False
  end.

(** An interaction of the uninstall worker: its child process and a box. *)
Definition uninstall_event (e : Event) : Prop :=
  match e with
  | EvPopen _ _ | EvCommunicate _ | EvKill | EvMessageBox _ _ _ => True
  | _ => False
  end.

(** Anything but the start of a worker thread. *)
Definition no_thread_start (e : Event) : Prop :=
  match e with
  | EvThreadStart _ => False
  | _ => True
  end.

(** The remote command of a child process: the last argument. *)
Definition runs_one_of (commands : list string) (e : Event) : Prop :=
  match e with
  | EvPopen argv _ => exists c, last argv = Some c /\ c ∈ commands
  | _ => True
  end.

Lemma last_full_cmd w st command timeout :
  last (full_cmd w st command timeout) = Some command.
Proof. unfold full_cmd. destruct (w_which_sshpass w); reflexivity. Qed.

Lemma omap_nil_of_Forall {A B} (f : A -> option B) (P : A -> Prop) l :
  (forall x, P x -> f x = None) -> Forall P l -> omap f l = [].
Proof.
  intros Hf H. induction H as [|x l Hx _ IH]; [reflexivity|].
  cbn. rewrite (Hf x Hx). exact IH.
Qed.

Section Frames.

Variable w : World.

Lemma execute_ssh_command_keeps_connection command timeout :
  keeps connection (execute_ssh_command w command timeout).
Proof. unfold execute_ssh_command. frame. Qed.

Lemma execute_ssh_command_keeps_progress command timeout :
  keeps progress_display (execute_ssh_command w command timeout).
Proof. unfold execute_ssh_command. frame. Qed.

Lemma execute_ssh_command_keeps_uninstall command timeout :
  keeps uninstall_display (execute_ssh_command w command timeout).
Proof. unfold execute_ssh_command. frame. Qed.

Lemma execute_ssh_command_keeps_status_label command timeout :
  keeps connection_status_label (execute_ssh_command w command timeout).
Proof. unfold execute_ssh_command. frame. Qed.

Lemma execute_ssh_command_keeps_content command timeout :
  keeps install_script_content (execute_ssh_command w command timeout).
Proof. unfold execute_ssh_command. frame. Qed.

Lemma execute_ssh_command_never_raises command timeout :
  never_raises (execute_ssh_command w command timeout).
Proof. unfold execute_ssh_command. total. Qed.

Lemma execute_ssh_command_emits (P : Event -> Prop) command timeout :
  (forall st, P (EvPopen (full_cmd w st command timeout) (env_extra w))) ->
  (forall t, P (EvCommunicate t)) -> P EvKill ->
  emits P (execute_ssh_command w command timeout).
Proof.
  intros Hp Hc Hk. unfold execute_ssh_command. interactions; auto.
Qed.

Hint Resolve execute_ssh_command_keeps_connection
  execute_ssh_command_keeps_progress execute_ssh_command_keeps_uninstall
  execute_ssh_command_keeps_status_label execute_ssh_command_keeps_content
  execute_ssh_command_never_raises : frame.

Ltac open_install :=
  unfold install, connect_to_pi, download_install_script, install_pi_service,
    verify_installation, create_windows_shortcuts.

Lemma install_keeps_connection h : keeps connection (install w h).
Proof. open_install. frame. Qed.

Lemma install_keeps_uninstall_display h : keeps uninstall_display (install w h).
Proof. open_install. frame. Qed.

Lemma install_keeps_status_label h : keeps connection_status_label (install w h).
Proof. open_install. frame. Qed.

Lemma install_never_raises h : never_raises (install w h).
Proof. unfold install. total. Qed.

Lemma install_starts_no_thread h : emits no_thread_start (install w h).
Proof.
  open_install. interactions; try exact I.
  all: apply execute_ssh_command_emits; intros; exact I.
Qed.

Lemma uninstall_keeps_connection : keeps connection (uninstall w).
Proof. unfold uninstall, execute_uninstall. frame. Qed.

Lemma uninstall_keeps_progress : keeps progress_display (uninstall w).
Proof. unfold uninstall, execute_uninstall. frame. Qed.

Lemma uninstall_keeps_status_label : keeps connection_status_label (uninstall w).
Proof. unfold uninstall, execute_uninstall. frame. Qed.

Lemma uninstall_keeps_content : keeps install_script_content (uninstall w).
Proof. unfold uninstall, execute_uninstall. frame. Qed.

Lemma uninstall_never_raises : never_raises (uninstall w).
Proof. unfold uninstall. total. Qed.

Lemma uninstall_emits : emits uninstall_event (uninstall w).
Proof.
  unfold uninstall, execute_uninstall. interactions; try exact I.
  all: apply execute_ssh_command_emits; intros; exact I.
Qed.

Lemma test_keeps_connection : keeps connection (test w).
Proof. unfold test. frame. Qed.

Lemma test_keeps_progress : keeps progress_display (test w).
Proof. unfold test. frame. Qed.

Lemma test_keeps_uninstall : keeps uninstall_display (test w).
Proof. unfold test. frame. Qed.

Lemma test_keeps_busy : keeps is_installing (test w).
Proof. unfold test. frame. Qed.

Lemma test_keeps_content : keeps install_script_content (test w).
Proof. unfold test. frame. Qed.

Lemma test_never_raises : never_raises (test w).
Proof. unfold test. total. Qed.

Lemma test_emits : emits test_event (test w).
Proof. unfold test. interactions; exact I. Qed.

Hint Resolve install_keeps_connection install_keeps_uninstall_display
  install_keeps_status_label install_never_raises
  uninstall_keeps_connection uninstall_keeps_progress
  uninstall_keeps_status_label uninstall_keeps_content uninstall_never_raises
  test_keeps_connection test_keeps_progress test_keeps_uninstall
  test_keeps_busy test_keeps_content test_never_raises : frame.

(** *** Exceptions stay inside the workers *)


(** *** The settings are read, never written *)

(** X2. Installing, uninstalling and testing the connection never change
    the hostname, the user name, the password, the port or the two shortcut
    options. *)
Theorem workflows_keep_the_settings :
  keeps connection (start_installation w)
  /\ keeps connection (start_uninstall w)
  /\ keeps connection (test_pi_connection w).
Proof.
  repeat split.
  - unfold start_installation. frame.
  - unfold start_uninstall. frame.
  - unfold test_pi_connection. frame.
Qed.

(** *** Each workflow stays in its own part of the window *)

(** X3. An install run leaves the uninstall output, the uninstall button
    and the connection status label alone; an uninstall run leaves the step
    labels, the progress bar, the install button, the status label and the
    downloaded script alone; a connection test touches neither the progress
    display, nor the uninstall tab, nor the busy flag. *)
Theorem workflows_stay_in_their_tab :
  (keeps uninstall_display (start_installation w)
   /\ keeps connection_status_label (start_installation w))
  /\ (keeps progress_display (start_uninstall w)
      /\ keeps connection_status_label (start_uninstall w)
      /\ keeps install_script_content (start_uninstall w))
  /\ (keeps progress_display (test_pi_connection w)
      /\ keeps uninstall_display (test_pi_connection w)
      /\ keeps is_installing (test_pi_connection w)
      /\ keeps install_script_content (test_pi_connection w)).
Proof.
  repeat split.
  - unfold start_installation. frame.
  - unfold start_installation. frame.
  - unfold start_uninstall. frame.
  - unfold start_uninstall. frame.
  - unfold start_uninstall. frame.
  - unfold test_pi_connection. frame.
  - unfold test_pi_connection. frame.
  - unfold test_pi_connection. frame.
  - unfold test_pi_connection. frame.
Qed.

(** *** The busy flag *)

Lemma final_after_modify {A} f (m : M A) st :
  final (bind (modify f) (fun _ => m) st) = final (m (f st)).
Proof.
  unfold final, bind, modify. destruct (m (f st)) as [[r s] t]. reflexivity.
Qed.

Lemma final_try_finally_modify {A} (body : M A) f g st :
  final (try_finally body (bind (modify f) (fun _ => modify g)) st)
  = g (f (final (body st))).
Proof.
  unfold final, try_finally, bind, modify.
  destruct (body st) as [[r s] t]. reflexivity.
Qed.

Lemma install_releases h st :
  is_installing (final (install w h st)) = false
  /\ install_button (final (install w h st))
     = mkButton "normal" "Install DreamPi Link Cable on Pi".
Proof.
  unfold install. rewrite !final_after_modify, final_try_finally_modify.
  split; reflexivity.
Qed.

Lemma uninstall_releases st :
  is_installing (final (uninstall w st)) = false
  /\ uninstall_button (final (uninstall w st))
     = mkButton "normal" "Uninstall DreamPi Link Cable".
Proof.
  unfold uninstall. rewrite !final_after_modify, final_try_finally_modify.
  split; reflexivity.
Qed.

(** X4. The busy flag is released on every path: when the install worker
    ends - after a success, a failed step or an exception - the flag is
    clear and the Install button is enabled with its original text, and the
    same holds for the uninstall worker and its button. A click on Install
    or on Uninstall therefore leaves the flag as it found it. *)
Theorem busy_flag_is_released :
  (forall h st,
     is_installing (final (install w h st)) = false
     /\ install_button (final (install w h st))
        = mkButton "normal" "Install DreamPi Link Cable on Pi")
  /\ (forall st,
        is_installing (final (uninstall w st)) = false
        /\ uninstall_button (final (uninstall w st))
           = mkButton "normal" "Uninstall DreamPi Link Cable")
  /\ keeps is_installing (start_installation w)
  /\ keeps is_installing (start_uninstall w).
Proof.
  split; [exact install_releases|]. split; [exact uninstall_releases|].
  split.
  - intros st. unfold start_installation, showbox. open_method. cbn.
    destruct (is_installing st) eqn:E; [exact E|].
    destruct (_ || _); cbn; [exact E|].
    pose proof (install_releases (Py.strip (hostname_var st)) st) as [H _].
    unfold final in H.
    destruct (install w _ st) as [[r s] t]. cbn in *. congruence.
  - intros st. unfold start_uninstall, showbox, askyesno. open_method. cbn.
    destruct (is_installing st) eqn:E; [exact E|].
    destruct (_ || _); cbn; [exact E|].
    destruct (w_askyesno w _ _); cbn; [|exact E].
    pose proof (uninstall_releases st) as [H _]. unfold final in H.
    destruct (uninstall w st) as [[r s] t]. cbn in *. congruence.
Qed.

End Frames.

(** ** The guards of the button handlers *)

(** Hostname and user name are both non-blank once stripped: the negation
    of [not hostname or not username]. *)
Definition configured (st : Installer) : bool :=
  Py.truthy (Py.strip (hostname_var st)) && Py.truthy (Py.strip (username_var st)).

(** The text of the [Configuration Required] box. *)
Definition configuration_required : Event :=
  EvMessageBox ShowError "Configuration Required"
    "Please configure Pi connection settings in the 'Pi Configuration' tab.".

(** The text of the [Confirm Uninstall] question for a hostname. *)
Definition confirm_uninstall_message (hostname : string) : string :=
  "Are you sure you want to completely remove DreamPi Link Cable from "
  +:+ hostname +:+ "?" +:+ nl2
  +:+ "This will:" +:+ nl
  +:+ "• Stop the web server service" +:+ nl
  +:+ "• Remove all installation files" +:+ nl
  +:+ "• Disable auto-start" +:+ nl2
  +:+ "This action cannot be undone.".

Arguments confirm_uninstall_message : simpl never.

Section Guards.

Variable w : World.

Lemma install_workers h st : workers (trace (install w h st)) = [].
Proof.
  apply (omap_nil_of_Forall _ no_thread_start).
  - intros [] H; try reflexivity. destruct H.
  - apply install_starts_no_thread.
Qed.

Lemma uninstall_workers st : workers (trace (uninstall w st)) = [].
Proof.
  apply (omap_nil_of_Forall _ uninstall_event).
  - intros [] H; try reflexivity. destruct H.
  - apply uninstall_emits.
Qed.



(** ** What the workers never do *)

(** X7. The uninstall worker only talks to its child process and shows
    message boxes: it never probes a port, downloads, asks for a shortcut
    or opens the browser. The connection test only resolves the name,
    probes and shows a box: it never starts a child process. *)
Theorem workers_keep_to_their_interactions st :
  Forall uninstall_event (trace (uninstall w st))
  /\ probes (trace (uninstall w st)) = []
  /\ shortcut_requests (trace (uninstall w st)) = []
  /\ Forall test_event (trace (test w st))
  /\ popens (trace (test w st)) = []
  /\ shortcut_requests (trace (test w st)) = [].
Proof.
  pose proof (uninstall_emits w st) as Hu.
  pose proof (test_emits w st) as Ht.
  split; [exact Hu|]. split; [|split; [|split; [exact Ht|split]]].
  - apply (omap_nil_of_Forall _ uninstall_event); [|exact Hu].
    intros [] H; try reflexivity; destruct H.
  - apply (omap_nil_of_Forall _ uninstall_event); [|exact Hu].
    intros [] H; try reflexivity; destruct H.
  - apply (omap_nil_of_Forall _ test_event); [|exact Ht].
    intros [] H; try reflexivity; destruct H.
  - apply (omap_nil_of_Forall _ test_event); [|exact Ht].
    intros [] H; try reflexivity; destruct H.
Qed.

(** X8. The remote command of every child process is one of the built-in
    texts: an install run only ever executes the embedded install script
    and the status query - never the script it downloaded - an uninstall
    run only the embedded uninstall script, and the connection test starts
    no child process at all. *)
Theorem remote_commands_are_built_in :
  (forall h, emits (runs_one_of [install_script; status_command]) (install w h))
  /\ emits (runs_one_of [uninstall_script]) (uninstall w)
  /\ emits (runs_one_of []) (test w).
Proof.
  split; [|split].
  - intros h.
    unfold install, connect_to_pi, download_install_script, install_pi_service,
      verify_installation, create_windows_shortcuts.
    interactions; try exact I.
    all: eexists; split; [apply last_full_cmd|].
    + apply list_elem_of_here.
    + apply list_elem_of_further, list_elem_of_here.
  - unfold uninstall, execute_uninstall. interactions; try exact I.
    all: eexists; split; [apply last_full_cmd|apply list_elem_of_here].
  - unfold test. interactions; exact I.
Qed.

End Guards.

(** ** The shape of an install run *)

(** The five final status lists that an install run can leave. *)
Definition run_outcomes : list (list string) :=
  [ ["Failed"; "Pending"; "Pending"; "Pending"; "Pending"];
    ["Complete"; "Failed"; "Pending"; "Pending"; "Pending"];
    ["Complete"; "Complete"; "Failed"; "Pending"; "Pending"];
    ["Complete"; "Complete"; "Complete"; "Complete"; "Complete"];
    ["Complete"; "Complete"; "Complete"; "Complete"; "Failed"] ].

Lemma reachable_true (o : Outcome Z) : reachable o = true -> o = Ret 0.
Proof. destruct o as [[|?|?]|?]; intros H; try discriminate H. reflexivity. Qed.

Lemma reachable_false (o : Outcome Z) : reachable o = false -> o <> Ret 0.
Proof. intros H ->. discriminate H. Qed.

Lemma not_downloaded (o : Outcome string) :
  (forall content, o = Ret content -> Py.truthy (Py.strip content) = false) ->
  downloaded o = false.
Proof. intros H. destruct o as [content|e]; [exact (H content eq_refl)|reflexivity]. Qed.

Ltac run_connect :=
  lazymatch goal with
  | |- context [connect_to_pi ?w' (retouch ?L ?n ?lg ?c ?S)] =>
      let n' := fresh "n" in let lg' := fresh "lg" in let E := fresh "E" in
      destruct (connect_to_pi_retouch w' L n lg c S) as (n' & lg' & E);
      rewrite E; clear E
  end.

Ltac run_download :=
  lazymatch goal with
  | |- context [download_install_script ?w' (retouch ?L ?n ?lg ?c ?S)] =>
      let n' := fresh "n" in let lg' := fresh "lg" in
      let c' := fresh "c" in let E := fresh "E" in
      destruct (download_install_script_retouch w' L n lg c S)
        as (n' & lg' & c' & E);
      rewrite E; clear E
  end.

(** Splits every observation of the goal along the trace it reads. *)
Ltac read_trace :=
  unfold shortcuts_only, quiet, probes, popens, failure_reports,
    success_reports, shortcut_requests in *;
  repeat first
    [ rewrite omap_app
    | match goal with
      | |- context [omap ?f (?e :: ?tr)] =>
          lazymatch tr with
          | [] => fail
          | _ => rewrite (omap_cons_app f e tr)
          end
      end ].

Section RunShape.

Variable w : World.

Lemma install_download_failure h st :
  ui_ready st ->
  w_connect_ex w (Py.strip (hostname_var st)) (port_var st) 10 = Ret 0 ->
  downloaded (w_urlopen w GITHUB_REPO_URL 30) = false ->
  exists recent,
    result (install w h st) = Ret tt
    /\ statuses (final (install w h st))
       = ["Complete"; "Failed"; "Pending"; "Pending"; "Pending"]
    /\ trace (install w h st)
       = [EvSockConnect (Py.strip (hostname_var st)) (port_var st) 10;
          EvUrlOpen GITHUB_REPO_URL 30;
          EvErrorDialog
            (failure_message "Failed to download installation script" recent)].
Proof.
  intros Hui Hconn Hd.
  assert (Hc : reachable (w_connect_ex w (Py.strip (hostname_var st))
                            (port_var st) 10) = true)
    by (rewrite Hconn; reflexivity).
  unfold install. open_method. rewrite !modify_run.
  cbn. rewrite (pending_labels st Hui), reset_retouch. exec.
  run_connect. cbn. rewrite Hc. exec.
  run_download. cbn. rewrite Hd. exec. rewrite !modify_run. cbn.
  eexists. repeat split.
Qed.

(** X9. When the Connect step succeeds and the download raises or gives
    only white space, the run ends at the Download step: Download is marked
    Failed, the later steps stay Pending, no child process is started and no
    shortcut is asked for, and the failure dialog - for
    [Failed to download installation script] - is the only report. *)
Theorem download_failure_aborts h st :
  ui_ready st ->
  w_connect_ex w (Py.strip (hostname_var st)) (port_var st) 10 = Ret 0 ->
  (forall content,
     w_urlopen w GITHUB_REPO_URL 30 = Ret content ->
     Py.truthy (Py.strip content) = false) ->
  let run := install w h st in
  result run = Ret tt
  /\ statuses (final run)
     = ["Complete"; "Failed"; "Pending"; "Pending"; "Pending"]
  /\ probes (trace run) = [(Py.strip (hostname_var st), port_var st, 10)]
  /\ popens (trace run) = []
  /\ shortcut_requests (trace run) = []
  /\ success_reports (trace run) = []
  /\ (exists recent,
        failure_reports (trace run)
        = [failure_message "Failed to download installation script" recent]).
Proof.
  intros Hui Hconn Hbody run. subst run.
  destruct (install_download_failure h st Hui Hconn (not_downloaded _ Hbody))
    as (recent & Hr & Hs & Ht).
  rewrite Ht. repeat split; try assumption.
  exists recent. reflexivity.
Qed.

(** X10. Every install run ends normally in one of five states of the
    progress list: a failure at Connect, Download or Install with the later
    steps still Pending, or the first four steps Complete with Shortcuts
    Complete or Failed. No step is left in progress, Verify is never Failed,
    and the run shows exactly one report: the completion question when the
    first four steps are Complete, the failure dialog otherwise. *)
Theorem install_run_shape h st :
  ui_ready st ->
  let run := install w h st in
  result run = Ret tt
  /\ statuses (final run) ∈ run_outcomes
  /\ ((take 4 (statuses (final run))
       = ["Complete"; "Complete"; "Complete"; "Complete"]
       /\ failure_reports (trace run) = []
       /\ success_reports (trace run)
          = [completion_message ("http://" +:+ h +:+ ":1999")])
      \/ ("Failed" ∈ take 3 (statuses (final run))
          /\ success_reports (trace run) = []
          /\ exists report, failure_reports (trace run) = [report])).
Proof.
  intros Hui run. subst run. unfold run_outcomes.
  destruct (reachable (w_connect_ex w (Py.strip (hostname_var st))
                         (port_var st) 10)) eqn:Hc.
  2: { apply reachable_false in Hc.
       destruct (install_connect_failure w h st Hui Hc)
         as (recent & Hr & Hs & Ht & _).
       rewrite Hs, Ht. split; [exact Hr|]. split; [apply list_elem_of_here|].
       right. split; [apply list_elem_of_here|]. split; [reflexivity|].
       eexists. reflexivity. }
  apply reachable_true in Hc.
  destruct (downloaded (w_urlopen w GITHUB_REPO_URL 30)) eqn:Hd.
  2: { destruct (install_download_failure h st Hui Hc Hd)
         as (recent & Hr & Hs & Ht).
       rewrite Hs, Ht. split; [exact Hr|].
       split; [apply list_elem_of_further, list_elem_of_here|].
       right. split; [apply list_elem_of_further, list_elem_of_here|].
       split; [reflexivity|]. eexists. reflexivity. }
  destruct (w_urlopen w GITHUB_REPO_URL 30) as [content|e] eqn:Hurl;
    [|discriminate Hd].
  assert (Hbody : Py.truthy (Py.strip content) = true) by exact Hd.
  destruct (Z.eq_dec (remote_result w st install_script 300).1.1 0) as [Hrc|Hrc].
  2: { destruct (install_service_failure w h st content Hui Hc Hurl Hbody Hrc)
         as (recent & Hr & Hs & Ht & _).
       destruct (remote_trace_quiet w st install_script 300)
         as ((F & S & C) & P).
       rewrite Hs, Ht. split; [exact Hr|].
       split; [do 2 apply list_elem_of_further; apply list_elem_of_here|].
       right. split; [do 2 apply list_elem_of_further; apply list_elem_of_here|].
       read_trace. rewrite F, S. cbn. split; [reflexivity|].
       eexists. reflexivity. }
  destruct (install_service_success w h st content Hui Hc Hurl Hbody Hrc)
    as (created & trV & trS & Hr & Hs & _).
  destruct (remote_result w st install_script 300) as [[rc out] err] eqn:Hres.
  cbn in Hrc. subst rc.
  assert (Hssh : result (execute_ssh_command w install_script 300 st)
                 = Ret (0, out, err)).
  { rewrite execute_ssh_command_run. unfold result. cbn. rewrite Hres.
    reflexivity. }
  destruct (install_success_reports w h st content out err
              Hui Hc Hurl Hbody Hssh)
    as (_ & Hfour & Hf & Hok & _).
  cbv zeta in Hfour, Hf, Hok.
  split; [exact Hr|]. split.
  - rewrite Hs. destruct created.
    + do 3 apply list_elem_of_further. apply list_elem_of_here.
    + do 4 apply list_elem_of_further. apply list_elem_of_here.
  - left. split; [exact Hfour|]. split; [exact Hf|exact Hok].
Qed.

End RunShape.

(** ** Remote output in the logs *)

(** [line.strip()] is truthy. *)
Definition nonblank (line : string) : bool := Py.truthy (Py.strip line).

(** The lines that the loop
    [for line in out.split('\n'): if line.strip(): logger(prefix + line)]
    hands to the logger. *)
Definition logged_lines (prefix out : string) : list string :=
  (fun line => prefix +:+ line) <$> List.filter nonblank (Py.split "010" out).

Lemma for_each_cons {A} (x : A) l body :
  for_each (x :: l) body = bind (body x) (fun _ => for_each l body).
Proof. reflexivity. Qed.

Lemma set_uninstall_output_id st :
  set_uninstall_output (uninstall_output st) st = st.
Proof. destruct st; reflexivity. Qed.

Lemma log_output_lines prefix out st :
  log_output log prefix out st
  = (Ret tt, set_full_log (full_log st ++ logged_lines prefix out) st, []).
Proof.
  unfold log_output, logged_lines. generalize (Py.split "010" out) as l.
  intros l. revert st. induction l as [|x l IH]; intros st.
  - cbn. rewrite app_nil_r, set_full_log_id. reflexivity.
  - rewrite for_each_cons. unfold bind. cbn [List.filter]. unfold nonblank at 1.
    destruct (Py.truthy (Py.strip x)).
    + rewrite log_run, IH. cbn. rewrite <- app_assoc. reflexivity.
    + cbn. rewrite IH. reflexivity.
Qed.

Lemma uninstall_log_output_lines prefix out st :
  log_output uninstall_log prefix out st
  = (Ret tt,
     set_uninstall_output (uninstall_output st ++ logged_lines prefix out) st,
     []).
Proof.
  unfold log_output, logged_lines. generalize (Py.split "010" out) as l.
  intros l. revert st. induction l as [|x l IH]; intros st.
  - cbn. rewrite app_nil_r, set_uninstall_output_id. reflexivity.
  - rewrite for_each_cons. unfold bind. cbn [List.filter]. unfold nonblank at 1.
    destruct (Py.truthy (Py.strip x)).
    + unfold uninstall_log at 1. rewrite modify_run, IH. cbn.
      rewrite <- app_assoc. reflexivity.
    + cbn. rewrite IH. reflexivity.
Qed.

Lemma logged_lines_empty prefix : logged_lines prefix EmptyString = [].
Proof. reflexivity. Qed.

Lemma logged_lines_length prefix out :
  (length (logged_lines prefix out) <= length (Py.split "010" out))%nat.
Proof.
  unfold logged_lines. rewrite length_fmap.
  induction (Py.split "010" out) as [|x l IH]; cbn; [lia|].
  destruct (nonblank x); cbn; lia.
Qed.


(** ** The uninstall run *)

(** An uninstall run only touches the busy flag, the uninstall button, the
    install log and the uninstall output. *)
Definition restate (busy : bool) (button : Button) (lg output : list string)
    (st : Installer) : Installer :=
  mkInstaller (hostname_var st) (username_var st) (password_var st) (port_var st)
    (create_desktop_shortcut st) (create_start_menu st) busy
    (step_labels st) (progress_bar st) lg output
    (install_button st) button (connection_status_label st)
    (install_script_content st).

Lemma restate_eta st :
  restate (is_installing st) (uninstall_button st) (full_log st)
    (uninstall_output st) st = st.
Proof. destruct st; reflexivity. Qed.

Lemma uninstall_log_restate m b u lg uo st :
  uninstall_log m (restate b u lg uo st)
  = (Ret tt, restate b u lg (uo ++ [m]) st, []).
Proof. reflexivity. Qed.

Lemma busy_restate b' b u lg uo st :
  modify (set_is_installing b') (restate b u lg uo st)
  = (Ret tt, restate b' u lg uo st, []).
Proof. reflexivity. Qed.

Lemma button_restate u' b u lg uo st :
  modify (set_uninstall_button u') (restate b u lg uo st)
  = (Ret tt, restate b u' lg uo st, []).
Proof. reflexivity. Qed.

Lemma uninstall_log_output_restate prefix out b u lg uo st :
  log_output uninstall_log prefix out (restate b u lg uo st)
  = (Ret tt, restate b u lg (uo ++ logged_lines prefix out) st, []).
Proof. rewrite uninstall_log_output_lines. reflexivity. Qed.

Arguments uninstall_log : simpl never.

(** The lines that an uninstall run adds to the uninstall output, for the
    triple that the remote executor returned. *)
Definition uninstall_report (r : Z * string * string) : list string :=
  [ EmptyString;
    Py.repeat "=" 50;
    "STARTING DREAMPI LINK CABLE UNINSTALL";
    Py.repeat "=" 50;
    "Executing uninstall commands on Pi...";
    "This may take a few moments..." ]
  ++ logged_lines "Pi: " r.1.2
  ++ logged_lines "SSH Error: " r.2
  ++ (if r.1.1 =? 0 then
        [ "Uninstall completed successfully";
          EmptyString;
          Py.repeat "=" 50;
          "DREAMPI LINK CABLE UNINSTALLED SUCCESSFULLY!";
          Py.repeat "=" 50;
          "All DreamPi Link Cable files and services have been removed.";
          "Your Pi has been cleaned up and returned to its previous state.";
          EmptyString;
          "To reinstall in the future, run this installer again." ]
      else
        [ "Uninstall failed with exit code " +:+ Py.str r.1.1;
          "ERROR: Uninstall failed - Uninstall process failed" ]).

(** The message box that ends an uninstall run. *)
Definition uninstall_box (return_code : Z) : MsgKind * string * string :=
  if return_code =? 0 then
    (ShowInfo, "Uninstall Complete",
     "DreamPi Link Cable has been completely removed from your Pi." +:+ nl2
     +:+ "All services stopped and files deleted." +:+ nl
     +:+ "Your Pi is now clean.")
  else
    (ShowError, "Uninstall Failed",
     "Uninstall failed: Uninstall process failed" +:+ nl2
     +:+ "Check the output log for details.").

Section UninstallRun.

Variable w : World.

Lemma execute_ssh_command_restate command timeout b u lg uo st :
  execute_ssh_command w command timeout (restate b u lg uo st)
  = (Ret (remote_result w st command timeout),
     restate b u (lg ++ [remote_log_line st command timeout]) uo st,
     remote_trace w st command timeout).
Proof. rewrite execute_ssh_command_run. reflexivity. Qed.

Ltac run_uninstall :=
  repeat first
    [ rewrite uninstall_log_restate
    | rewrite busy_restate
    | rewrite button_restate
    | rewrite execute_ssh_command_restate
    | rewrite uninstall_log_output_restate
    | progress cbn ].

Lemma uninstall_run b u lg uo st :
  let r := remote_result w st uninstall_script 120 in
  uninstall w (restate b u lg uo st)
  = (Ret tt,
     restate false (mkButton "normal" "Uninstall DreamPi Link Cable")
       (lg ++ [remote_log_line st uninstall_script 120])
       (uo ++ uninstall_report r) st,
     remote_trace w st uninstall_script 120
     ++ [EvMessageBox (uninstall_box r.1.1).1.1 (uninstall_box r.1.1).1.2
           (uninstall_box r.1.1).2]).
Proof.
  intros r. subst r. unfold uninstall, execute_uninstall, showbox.
  open_method. run_uninstall.
  unfold uninstall_report, uninstall_box.
  destruct (remote_result w st uninstall_script 120) as [[rc out] err].
  run_uninstall.
  destruct out as [|c1 out]; destruct err as [|c2 err]; run_uninstall;
    rewrite ?logged_lines_empty;
    destruct (rc =? 0); run_uninstall;
    rewrite ?app_nil_r, <- ?app_assoc; reflexivity.
Qed.

(** X12. An uninstall run starts one child process - ssh with the embedded
    uninstall script - and ends normally with one message box: Uninstall
    Complete when the executor returned exit code 0, Uninstall Failed
    otherwise (a time-out, a child that could not be started, a non-zero
    exit). The uninstall output gains the header, the non-blank lines of the
    remote output and error text, and the closing lines of that outcome;
    the SSH command line is written to the install log, not to the
    uninstall output. The busy flag is clear at the end. *)
Theorem uninstall_outcome st rc out err :
  result (execute_ssh_command w uninstall_script 120 st) = Ret (rc, out, err) ->
  let run := uninstall w st in
  result run = Ret tt
  /\ popens (trace run) = [full_cmd w st uninstall_script 120]
  /\ message_boxes (trace run) = [uninstall_box rc]
  /\ uninstall_output (final run)
     = uninstall_output st ++ uninstall_report (rc, out, err)
  /\ full_log (final run)
     = full_log st ++ [remote_log_line st uninstall_script 120]
  /\ is_installing (final run) = false.
Proof.
  intros Hssh run. subst run. apply remote_result_of_run in Hssh.
  pose proof (uninstall_run (is_installing st) (uninstall_button st)
                (full_log st) (uninstall_output st) st) as H.
  cbv zeta in H. rewrite restate_eta, Hssh in H. rewrite H.
  unfold result, final, trace. cbn [fst snd].
  split; [reflexivity|]. split; [|split; [|repeat split]].
  - unfold popens. rewrite omap_app. cbn.
    rewrite app_nil_r. apply remote_trace_popens.
  - unfold message_boxes. rewrite omap_app.
    rewrite (omap_nil_of_Forall _ child_process_event).
    + cbn. destruct (uninstall_box rc) as [[k t] b]. reflexivity.
    + intros [] Hc; try reflexivity; destruct Hc.
    + unfold remote_trace.
      destruct (w_popen w _ _); [destruct (w_communicate w _ _)|];
        repeat constructor.
Qed.

End UninstallRun.

(** ** The connection test *)

Ltac run_raw := repeat first [rewrite log_run | rewrite modify_run | progress cbn].

Lemma colors_differ : success_color <> error_color.
Proof. discriminate. Qed.

Section ConnectionTest.

Variable w : World.


End ConnectionTest.

(** ** Saving, loading and resetting the settings *)

(** What [with open(path, 'w') as f: json.dump(settings, f, indent=2)]
    can do to the settings file. *)
Inductive WriteResult : Type :=
  | Written                       (* the file now holds the object *)
  | OpenRefused (e : Exn)         (* open raises: the file is untouched *)
  | DumpFails (e : Exn) (remains : SettingsFile).
                                  (* open has truncated the file, then
                                     json.dump or closing it raises e; remains
                                     is what the file holds afterwards *)

(** The [settings] dictionary of [save_settings]. *)
Definition settings_of (st : Installer) : SettingsDict :=
  mkSettings (Some (hostname_var st)) (Some (username_var st))
    (Some (password_var st)) (Some (port_var st)).

(** The exception, if any, that leaves the [with] block. *)
Definition write_outcome (wr : WriteResult) : Outcome unit :=
  match wr with
  | Written => Ret tt
  | OpenRefused e => Raise e
  | DumpFails e _ => Raise e
  end.

(** The settings file after the [with] block. *)
Definition file_after (wr : WriteResult) (settings : SettingsDict)
    (before : SettingsFile) : SettingsFile :=
  match wr with
  | Written => JsonObject settings
  | OpenRefused _ => before
  | DumpFails _ remains => remains
  end.

(** [save_settings]. The method returns nothing; the value of the
    computation is the settings file that the call leaves behind. *)
Definition save_settings (wr : WriteResult) (before : SettingsFile)
  : M SettingsFile :=
  st <- get ;;
  let settings := settings_of st in
  try_except
    (answer (write_outcome wr) ;;
     log "Configuration saved successfully" ;;
     showbox ShowInfo "Settings Saved" "Pi configuration has been saved." ;;
     ret (file_after wr settings before))
    (fun e =>
       log ("ERROR: Failed to save configuration - " +:+ exn_msg e) ;;
       showbox ShowError "Save Error"
         ("Failed to save configuration: " +:+ exn_msg e) ;;
       ret (file_after wr settings before)).

(** [reset_to_defaults] *)
Definition reset_to_defaults : M unit :=
  modify (set_hostname_var DEFAULT_HOSTNAME) ;;
  modify (set_username_var DEFAULT_USERNAME) ;;
  modify (set_password_var DEFAULT_PASSWORD) ;;
  modify (set_port_var DEFAULT_PORT) ;;
  log "Configuration reset to defaults".

(** The world in which the settings file is [file]. *)
Definition with_settings_file (file : SettingsFile) (w : World) : World :=
  mkWorld (w_gethostbyname w) (w_connect_ex w) (w_urlopen w) (w_which_sshpass w)
    (w_popen w) (w_communicate w) (w_drain w)
    (w_desktop_shortcut w) (w_start_menu_shortcut w) (w_askyesno w)
    (w_strftime w) file.

(** The four settings that are saved. *)
Definition saved_settings (st : Installer) : string * string * string * Z :=
  (hostname_var st, username_var st, password_var st, port_var st).

(** The two shortcut options. *)
Definition shortcut_options (st : Installer) : bool * bool :=
  (create_desktop_shortcut st, create_start_menu st).

Section Settings.

Variable w : World.

(** X14. What [save_settings] writes is what [load_settings] reads back:
    after a successful save, loading the file into any installer gives the
    hostname, user name, password and port that were saved, exactly as
    they were - not stripped, and an empty value is not replaced by its
    default. The shortcut options are not part of the file: loading leaves
    them as they are, so a restart comes up with both selected. The save
    itself changes no setting and shows the Settings Saved box. *)
Theorem saved_settings_load_back before st st' :
  let saved := save_settings Written before st in
  exists file,
    result saved = Ret file
    /\ message_boxes (trace saved)
       = [(ShowInfo, "Settings Saved", "Pi configuration has been saved.")]
    /\ connection (final saved) = connection st
    /\ saved_settings (final (load_settings (with_settings_file file w) st'))
       = saved_settings st
    /\ shortcut_options (final (load_settings (with_settings_file file w) st'))
       = shortcut_options st'
    /\ saved_settings (final (init (with_settings_file file w)))
       = saved_settings st
    /\ shortcut_options (final (init (with_settings_file file w)))
       = (true, true).
Proof.
  intros saved. subst saved. exists (JsonObject (settings_of st)).
  unfold save_settings, init, load_settings, showbox. open_method. run_raw.
  repeat split.
Qed.

(** X15. A save that fails shows the Save Error box with the message of the
    exception and changes no setting. When the file cannot be opened it
    is left as it was; when writing fails after the file was opened, the
    file holds what the failed write left, and if that does not parse the
    next start silently comes up with the built-in defaults. *)
Theorem failed_save_is_reported before st :
  (forall e,
     let run := save_settings (OpenRefused e) before st in
     result run = Ret before
     /\ message_boxes (trace run)
        = [(ShowError, "Save Error",
            "Failed to save configuration: " +:+ exn_msg e)]
     /\ connection (final run) = connection st)
  /\ (forall e remains,
        let run := save_settings (DumpFails e remains) before st in
        result run = Ret remains
        /\ message_boxes (trace run)
           = [(ShowError, "Save Error",
               "Failed to save configuration: " +:+ exn_msg e)]
        /\ connection (final run) = connection st)
  /\ (forall e decode,
        let run := save_settings (DumpFails e (JsonMalformed decode)) before st in
        exists file,
          result run = Ret file
          /\ init (with_settings_file file w) = (Ret tt, fresh_installer, [])).
Proof.
  split; [|split].
  - intros e run. subst run.
    unfold save_settings, showbox. open_method. run_raw.
    repeat split.
  - intros e remains run. subst run.
    unfold save_settings, showbox. open_method. run_raw.
    repeat split.
  - intros e decode run. subst run. exists (JsonMalformed decode).
    unfold save_settings, init, load_settings, showbox. open_method. run_raw.
    repeat split.
Qed.

(** X16. [reset_to_defaults] puts back the four built-in settings, leaves
    the shortcut options alone and logs one line; saving right after it
    leaves a file from which the next start comes up exactly as a first
    start without a settings file. *)
Theorem reset_restores_first_start_settings before st :
  let run := reset_to_defaults st in
  result run = Ret tt
  /\ trace run = []
  /\ saved_settings (final run) = ("dreampi.local", "pi", "raspberry", 22)
  /\ shortcut_options (final run) = shortcut_options st
  /\ full_log (final run) = full_log st ++ ["Configuration reset to defaults"]
  /\ (exists file,
        result (save_settings Written before (final run)) = Ret file
        /\ init (with_settings_file file w) = (Ret tt, fresh_installer, [])).
Proof.
  intros run. subst run.
  unfold reset_to_defaults. open_method. run_raw.
  do 5 (split; [reflexivity|]).
  eexists. unfold save_settings, showbox. open_method. run_raw.
  split; [reflexivity|].
  unfold init, load_settings. open_method. run_raw. reflexivity.
Qed.

End Settings.

(** ** The command line of the remote executor *)

Section CommandLine.

Variable w : World.

(** X17. The line that [execute_ssh_command] logs shows neither the
    password nor the remote command: it is the same for every password and
    every command. The command is passed verbatim as the last argument of
    the one child process. Without [sshpass] the command line does not
    depend on the password and the child gets SSH_ASKPASS=echo and
    DISPLAY=dummy:0; with [sshpass] the password is the third argument of
    the local command line. The connect timeout given to ssh is the call's
    timeout capped at 30 seconds. *)
Theorem password_and_command_stay_out_of_the_log st command timeout :
  let run := execute_ssh_command w command timeout st in
  let argv := full_cmd w st command timeout in
  (exists line,
     forall p c,
       full_log (final (execute_ssh_command w c timeout (set_password_var p st)))
       = full_log st ++ [line])
  /\ popens (trace run) = [argv]
  /\ last argv = Some command
  /\ ("ConnectTimeout=" +:+ Py.str (Z.min timeout 30)) ∈ argv
  /\ (w_which_sshpass w = false ->
      (forall p, full_cmd w (set_password_var p st) command timeout = argv)
      /\ head (trace run)
         = Some (EvPopen argv [("SSH_ASKPASS", "echo"); ("DISPLAY", "dummy:0")]))
  /\ (w_which_sshpass w = true ->
      take 3 argv = ["sshpass"; "-p"; password_var st]
      /\ head (trace run) = Some (EvPopen argv [])).
Proof.
  intros run argv. subst run argv.
  split; [|split; [|split; [|split; [|split]]]].
  - exists (remote_log_line st EmptyString timeout). intros p c.
    rewrite execute_ssh_command_run. reflexivity.
  - rewrite execute_ssh_command_run. apply remote_trace_popens.
  - apply last_full_cmd.
  - unfold full_cmd, ssh_cmd. destruct (w_which_sshpass w).
    + do 13 apply list_elem_of_further. apply list_elem_of_here.
    + do 10 apply list_elem_of_further. apply list_elem_of_here.
  - intros Hno. split.
    + intros p. unfold full_cmd. rewrite Hno. reflexivity.
    + rewrite execute_ssh_command_run. unfold trace, remote_trace, env_extra.
      rewrite Hno. reflexivity.
  - intros Hyes. split.
    + unfold full_cmd. rewrite Hyes. reflexivity.
    + rewrite execute_ssh_command_run. unfold trace, remote_trace, env_extra.
      rewrite Hyes. reflexivity.
Qed.

End CommandLine.

(** ** Invariants of the runs *)

(** The computation takes every state to one that is related to it by [R]. *)
Definition respects {A} (R : relation Installer) (m : M A) : Prop :=
  forall st, R st (final (m st)).

Section Respects.

Context (R : relation Installer) `{!PreOrder R}.

Lemma respects_ret {A} (a : A) : respects R (ret a).
Proof. intros st. reflexivity. Qed.

Lemma respects_raise {A} e : respects R (@raise A e).
Proof. intros st. reflexivity. Qed.

Lemma respects_get : respects R get.
Proof. intros st. reflexivity. Qed.

Lemma respects_emit e : respects R (emit e).
Proof. intros st. reflexivity. Qed.

Lemma respects_answer {A} (o : Outcome A) : respects R (answer o).
Proof. intros st. reflexivity. Qed.

Lemma respects_modify f : (forall st, R st (f st)) -> respects R (modify f).
Proof. intros H st. apply H. Qed.

Lemma respects_bind {A B} (m : M A) (k : A -> M B) :
  respects R m -> (forall a, respects R (k a)) -> respects R (bind m k).
Proof.
  intros Hm Hk st. specialize (Hm st). unfold final, bind in *.
  destruct (m st) as [[[a|e] s1] t1]; cbn in *; [|exact Hm].
  specialize (Hk a s1). unfold final in Hk.
  destruct (k a s1) as [[r s2] t2]; cbn in *. etransitivity; eassumption.
Qed.

Lemma respects_try_except {A} (body : M A) handler :
  respects R body -> (forall e, respects R (handler e)) ->
  respects R (try_except body handler).
Proof.
  intros Hm Hk st. specialize (Hm st). unfold final, try_except in *.
  destruct (body st) as [[[a|e] s1] t1]; cbn in *; [exact Hm|].
  specialize (Hk e s1). unfold final in Hk.
  destruct (handler e s1) as [[r s2] t2]; cbn in *. etransitivity; eassumption.
Qed.

Lemma respects_try_finally {A} (body : M A) fin :
  respects R body -> respects R fin -> respects R (try_finally body fin).
Proof.
  intros Hm Hk st. specialize (Hm st). unfold final, try_finally in *.
  destruct (body st) as [[r s1] t1]; cbn in *.
  specialize (Hk s1). unfold final in Hk.
  destruct (fin s1) as [[[[]|e] s2] t2]; cbn in *; etransitivity; eassumption.
Qed.

Lemma respects_for_each {A} (l : list A) body :
  (forall x, respects R (body x)) -> respects R (for_each l body).
Proof.
  intros H. induction l as [|x l IH].
  - apply respects_ret.
  - rewrite for_each_cons. apply respects_bind; [apply H|intros _; exact IH].
Qed.

End Respects.

(** Decomposes a [respects] goal along the structure of the method; what is
    left is [R st (f st)] for the updates [f] that the method makes. *)
Ltac invariant :=
  repeat
    (cbv beta zeta;
     lazymatch goal with
     | |- PreOrder _ => typeclasses eauto
     | |- respects _ (ret _) => apply respects_ret
     | |- respects _ (raise _) => apply respects_raise
     | |- respects _ get => apply respects_get
     | |- respects _ (emit _) => apply respects_emit
     | |- respects _ (answer _) => apply respects_answer
     | |- respects _ (modify _) => apply respects_modify; intros ?
     | |- respects _ (bind _ _) =>
         apply respects_bind; [| |intros ?]
     | |- respects _ (try_except _ _) =>
         apply respects_try_except; [| |intros ?]
     | |- respects _ (try_finally _ _) => apply respects_try_finally
     | |- respects _ (for_each _ _) =>
         apply respects_for_each; [|intros ?]
     | |- respects _ (if ?b then _ else _) => destruct b
     | |- respects _ (match ?x with _ => _ end) => destruct x
     | |- respects _ _ =>
         progress unfold log, uninstall_log, update_step_status, raise_if,
           log_output, showbox, askyesno, connect_ex, gethostbyname, urlopen,
           create_desktop_shortcut_file, create_start_menu_shortcut,
           execute_ssh_command
     end).

(** Both logs only grow. *)
Definition logs_grow : relation Installer :=
  fun st st' =>
    full_log st `prefix_of` full_log st'
    /\ uninstall_output st `prefix_of` uninstall_output st'.

#[local] Instance logs_grow_preorder : PreOrder logs_grow.
Proof.
  split.
  - intros st. split; reflexivity.
  - intros s1 s2 s3 [H1 H2] [H3 H4]. split; etransitivity; eassumption.
Qed.

(** The progress bar shows the number of Complete steps. *)
Definition progress_counted (st : Installer) : Prop :=
  progress_bar st = completed_steps (step_labels st).

(** The status list keeps its length, and the progress bar, once it shows
    the number of Complete steps, goes on doing so. *)
Definition display_kept : relation Installer :=
  fun st st' =>
    length (step_labels st') = length (step_labels st)
    /\ (progress_counted st -> progress_counted st').

#[local] Instance display_kept_preorder : PreOrder display_kept.
Proof.
  split.
  - intros st. split; [reflexivity|auto].
  - intros s1 s2 s3 [H1 H2] [H3 H4]. split; [congruence|auto].
Qed.

Lemma relabel_length i s c l : length (relabel i s c l) = length l.
Proof.
  unfold relabel. destruct (i <? length l)%nat; [apply length_insert|reflexivity].
Qed.

Lemma completed_steps_pending (l : list Label) :
  completed_steps ((fun _ => mkLabel "Pending" warning_color) <$> l) = 0%nat.
Proof.
  unfold completed_steps. induction l as [|x l IH]; [reflexivity|].
  rewrite fmap_cons, filter_cons_False; [exact IH|]. cbn. discriminate.
Qed.

Lemma final_try_except_after_modify {A} f (m : M A) handler st :
  final (try_except (bind (modify f) (fun _ => m)) handler st)
  = final (try_except m handler (f st)).
Proof.
  unfold final, try_except, bind, modify.
  destruct (m (f st)) as [[[a|e] s] t]; cbn; [reflexivity|].
  destruct (handler e s) as [[r s'] t']. reflexivity.
Qed.

Section Invariants.

Variable w : World.

Ltac open_run :=
  unfold install, uninstall, execute_uninstall, test, connect_to_pi,
    download_install_script, install_pi_service, verify_installation,
    create_windows_shortcuts.

Ltac grown :=
  split; cbn;
  first [ reflexivity | apply prefix_app_r; reflexivity ].

Lemma install_logs_grow h : respects logs_grow (install w h).
Proof. open_run. invariant; grown. Qed.

Lemma uninstall_logs_grow : respects logs_grow (uninstall w).
Proof. open_run. invariant; grown. Qed.

Lemma test_logs_grow : respects logs_grow (test w).
Proof. open_run. invariant; grown. Qed.

(** X18. The logs are append-only: whatever happens in an install run, an
    uninstall run or a connection test - started from the button or run as
    the worker - every line that was in the install log or in the uninstall
    output before is still there afterwards, in place, and new lines come
    after it. *)
Theorem logs_are_append_only st :
  (forall h, logs_grow st (final (install w h st)))
  /\ logs_grow st (final (uninstall w st))
  /\ logs_grow st (final (test w st))
  /\ logs_grow st (final (start_installation w st))
  /\ logs_grow st (final (start_uninstall w st))
  /\ logs_grow st (final (test_pi_connection w st)).
Proof.
  pose proof install_logs_grow as Hi.
  pose proof uninstall_logs_grow as Hu.
  pose proof test_logs_grow as Ht.
  split; [intros h; apply Hi|]. split; [apply Hu|]. split; [apply Ht|].
  split; [|split].
  - revert st. change (respects logs_grow (start_installation w)).
    unfold start_installation. invariant; auto.
  - revert st. change (respects logs_grow (start_uninstall w)).
    unfold start_uninstall. invariant; auto.
  - revert st. change (respects logs_grow (test_pi_connection w)).
    unfold test_pi_connection. invariant; auto.
Qed.

Ltac kept :=
  split; cbn;
  first [ reflexivity | assumption | intros H; exact H
        | apply relabel_length | apply length_fmap ].

(** X19. An install run never adds or removes a status label, and when it
    ends the progress bar shows exactly the number of steps whose status is
    Complete - whatever the bar showed before the run and however the run
    ended. *)
Theorem progress_bar_counts_complete_steps h st :
  let after := final (install w h st) in
  length (step_labels after) = length (step_labels st)
  /\ progress_bar after = completed_steps (step_labels after).
Proof.
  intros after. subst after.
  unfold install.
  rewrite !final_after_modify, final_try_finally_modify,
    !final_try_except_after_modify.
  lazymatch goal with
  | |- context [final (try_except ?body ?handler ?s0)] =>
      assert (Hrun : respects display_kept (try_except body handler))
  end.
  { open_run. invariant; kept. }
  lazymatch goal with
  | |- context [final (try_except ?body ?handler ?s0)] =>
      destruct (Hrun s0) as [Hlen Hcount];
      set (s1 := final (try_except body handler s0)) in *
  end.
  clearbody s1. clear Hrun. unfold progress_counted in Hcount.
  cbn in Hlen, Hcount |- *. rewrite length_fmap in Hlen.
  split; [exact Hlen|].
  apply Hcount. symmetry. apply completed_steps_pending.
Qed.

End Invariants.

(** ** The status list *)

(** X20. [update_step_status] changes the one label it is given and no
    other; an index past the end of the list is ignored without an error.
    Either way the list keeps its length, the progress bar is set to the
    number of Complete labels, nothing is raised and nothing outside the
    progress display is touched. *)
Theorem update_step_status_touches_one_label i s c st :
  let run := update_step_status i s c st in
  let after := final run in
  result run = Ret tt
  /\ trace run = []
  /\ length (step_labels after) = length (step_labels st)
  /\ (forall j, j <> i -> step_labels after !! j = step_labels st !! j)
  /\ ((i < length (step_labels st))%nat ->
      step_labels after !! i = Some (mkLabel s c))
  /\ ((length (step_labels st) <= i)%nat ->
      step_labels after = step_labels st)
  /\ progress_bar after = completed_steps (step_labels after)
  /\ connection after = connection st
  /\ full_log after = full_log st
  /\ is_installing after = is_installing st.
Proof.
  intros run after. subst run after.
  unfold update_step_status. rewrite modify_run. unfold result, trace, final.
  cbn. unfold relabel.
  destruct (Nat.ltb_spec i (length (step_labels st))) as [Hlt|Hge].
  - repeat split; try reflexivity.
    + apply length_insert.
    + intros j Hj. apply list_lookup_insert_ne. congruence.
    + intros _. apply list_lookup_insert_eq. exact Hlt.
    + intros Hge. lia.
  - repeat split; try reflexivity. intros Hlt. lia.
Qed.

(** ** The Shortcuts step *)

Ltac run_install :=
  lazymatch goal with
  | |- context [install_pi_service ?w' (retouch ?L ?n ?lg ?c ?S)] =>
      let n' := fresh "n" in let lg' := fresh "lg" in let E := fresh "E" in
      destruct (install_pi_service_retouch w' L n lg c S) as (n' & lg' & E);
      rewrite E; clear E; rewrite ?remote_result_busy, ?remote_trace_busy
  end.

Ltac run_verify :=
  lazymatch goal with
  | |- context [verify_installation ?w' (retouch ?L ?n ?lg ?c ?S)] =>
      let col := fresh "col" in
      let n' := fresh "n" in let lg' := fresh "lg" in
      let tr := fresh "trV" in let E := fresh "E" in
      let Hq := fresh "HquietV" in let Hp := fresh "HprobesV" in
      destruct (verify_installation_retouch w' L n lg c S)
        as (col & n' & lg' & tr & E & Hq & Hp);
      rewrite E; clear E
  end.

Ltac run_shortcuts :=
  lazymatch goal with
  | |- context [create_windows_shortcuts ?w' (retouch ?L ?n ?lg ?c ?S)] =>
      let b := fresh "created" in
      let n' := fresh "n" in let lg' := fresh "lg" in
      let tr := fresh "trS" in let E := fresh "E" in
      let Ho := fresh "HonlyS" in let Hn := fresh "HnoneS" in
      destruct (create_windows_shortcuts_retouch w' L n lg c S)
        as (b & n' & lg' & tr & E & Ho & Hn);
      rewrite E; clear E
  end.

Ltac found_in_log :=
  cbn;
  repeat (apply elem_of_app;
          first [ right;
                  solve [repeat first [ apply list_elem_of_here
                                      | apply list_elem_of_further ]]
                | left ]).

Section Shortcuts.

Variable w : World.

Lemma shortcuts_exact L n lg c st d m :
  let url := "http://" +:+ Py.strip (hostname_var st) +:+ ":" +:+ Py.str PORTAL_PORT in
  (w_desktop_shortcut w url).2 = Ret d ->
  (w_start_menu_shortcut w url).2 = Ret m ->
  let made := (create_desktop_shortcut st && d) || (create_start_menu st && m) in
  exists n' lg',
    create_windows_shortcuts w (retouch L n lg c st)
    = (Ret made,
       retouch (relabel 4 (if made then "Complete" else "Failed")
                  (if made then success_color else error_color) L)
         n' lg' c st,
       (if create_desktop_shortcut st then [EvDesktopShortcut url] else [])
       ++ (if create_start_menu st then [EvStartMenuShortcut url] else []))
    /\ (create_desktop_shortcut st = true ->
        (if d then "Desktop shortcut created successfully"
         else "Failed to create desktop shortcut") ∈ lg')
    /\ (create_start_menu st = true ->
        (if m then "Start Menu entry created successfully"
         else "Failed to create Start Menu entry") ∈ lg').
Proof.
  intros url Hd Hm made. subst url made.
  unfold create_windows_shortcuts, create_desktop_shortcut_file,
    create_start_menu_shortcut.
  open_method. exec.
  destruct (create_desktop_shortcut st); destruct (create_start_menu st); exec.
  all: rewrite ?Hd, ?Hm; exec.
  all: destruct d; destruct m; exec.
  all: rewrite ?relabel_relabel, ?app_nil_r.
  all: eexists _, _; split; [reflexivity|].
  all: split; intros Hsel; first [discriminate Hsel | found_in_log].
Qed.

(** X21. When the shortcut collaborators answer without raising, the
    Shortcuts step asks exactly the selected ones - the desktop shortcut
    first - for the portal address of the stripped hostname, and an
    unselected one is never asked. The step succeeds and is marked
    Complete exactly when at least one selected collaborator reported
    success, and is marked Failed otherwise; each answer is logged. *)
Theorem shortcuts_step_counts_the_created_ones st d m :
  let url := "http://" +:+ Py.strip (hostname_var st) +:+ ":1999" in
  (w_desktop_shortcut w url).2 = Ret d ->
  (w_start_menu_shortcut w url).2 = Ret m ->
  let made := (create_desktop_shortcut st && d) || (create_start_menu st && m) in
  let run := create_windows_shortcuts w st in
  result run = Ret made
  /\ trace run
     = (if create_desktop_shortcut st then [EvDesktopShortcut url] else [])
       ++ (if create_start_menu st then [EvStartMenuShortcut url] else [])
  /\ ((4 < length (step_labels st))%nat ->
      statuses (final run) !! 4%nat
      = Some (if made then "Complete" else "Failed"))
  /\ (create_desktop_shortcut st = true ->
      (if d then "Desktop shortcut created successfully"
       else "Failed to create desktop shortcut") ∈ full_log (final run))
  /\ (create_start_menu st = true ->
      (if m then "Start Menu entry created successfully"
       else "Failed to create Start Menu entry") ∈ full_log (final run)).
Proof.
  intros url Hd Hm made run. subst url made run.
  destruct (shortcuts_exact (step_labels st) (progress_bar st) (full_log st)
              (install_script_content st) st d m Hd Hm)
    as (n' & lg' & E & Hld & Hlm).
  rewrite retouch_eta in E. rewrite E.
  split; [reflexivity|]. split; [reflexivity|].
  split; [apply status_after_relabel|]. split; assumption.
Qed.

Lemma install_success_summary h st content :
  ui_ready st ->
  w_connect_ex w (Py.strip (hostname_var st)) (port_var st) 10 = Ret 0 ->
  w_urlopen w GITHUB_REPO_URL 30 = Ret content ->
  Py.truthy (Py.strip content) = true ->
  (remote_result w st install_script 300).1.1 = 0 ->
  (create_desktop_shortcut st = true ->
   "• Desktop shortcut: Created" ∈ full_log (final (install w h st)))
  /\ (create_start_menu st = true ->
      "• Start Menu entry: Created" ∈ full_log (final (install w h st))).
Proof.
  intros Hui Hconn Hurl Hbody Hrc.
  assert (Hc : reachable (w_connect_ex w (Py.strip (hostname_var st))
                            (port_var st) 10) = true)
    by (rewrite Hconn; reflexivity).
  pose proof (downloaded_ok w content Hurl Hbody) as Hd.
  apply Z.eqb_eq in Hrc.
  unfold install. open_method. rewrite !modify_run.
  cbn. rewrite (pending_labels st Hui), reset_retouch. exec.
  run_connect. cbn. rewrite Hc. exec.
  run_download. cbn. rewrite Hd. exec.
  run_install. cbn. rewrite Hrc. exec.
  run_verify. exec.
  run_shortcuts. exec.
  destruct created; exec;
    destruct (create_desktop_shortcut st); exec;
    destruct (create_start_menu st); exec;
    destruct (w_askyesno w _ _); exec; rewrite !modify_run; cbn;
    (split; intros Hsel; first [discriminate Hsel | found_in_log]).
Qed.

(** X22. The summary that a successful install run writes to the log goes
    by the options, not by the outcome: the line
    [Desktop shortcut: Created] is logged whenever the desktop option is
    selected, and [Start Menu entry: Created] whenever that option is
    selected, whatever the shortcut collaborators answered - also in a run
    whose Shortcuts step is marked Failed. *)
Theorem summary_lists_the_selected_shortcuts h st content out err :
  ui_ready st ->
  w_connect_ex w (Py.strip (hostname_var st)) (port_var st) 10 = Ret 0 ->
  w_urlopen w GITHUB_REPO_URL 30 = Ret content ->
  Py.truthy (Py.strip content) = true ->
  result (execute_ssh_command w install_script 300 st) = Ret (0, out, err) ->
  let run := install w h st in
  (create_desktop_shortcut st = true ->
   "• Desktop shortcut: Created" ∈ full_log (final run))
  /\ (create_start_menu st = true ->
      "• Start Menu entry: Created" ∈ full_log (final run)).
Proof.
  intros Hui Hconn Hurl Hbody Hssh run. subst run.
  apply remote_result_of_run in Hssh.
  apply (install_success_summary h st content Hui Hconn Hurl Hbody).
  rewrite Hssh. reflexivity.
Qed.

End Shortcuts.

(** ** The further properties at concrete runs *)

(** The installer with a hostname of blanks only. *)
Definition unconfigured_installer : Installer :=
  set_hostname_var "   " sample_installer.

(** The download answers with white space only. *)
Definition blank_download_world : World :=
  {| w_gethostbyname := w_gethostbyname friendly_world;
     w_connect_ex := w_connect_ex friendly_world;
     w_urlopen := fun _ _ => Ret ("  " +:+ nl);
     w_which_sshpass := false;
     w_popen := w_popen friendly_world;
     w_communicate := w_communicate friendly_world;
     w_drain := w_drain friendly_world;
     w_desktop_shortcut := w_desktop_shortcut friendly_world;
     w_start_menu_shortcut := w_start_menu_shortcut friendly_world;
     w_askyesno := w_askyesno friendly_world;
     w_strftime := w_strftime friendly_world;
     w_settings_file := FileAbsent |}.



Lemma download_failure_witness :
  w_connect_ex blank_download_world "dreampi.local" 22 10 = Ret 0
  /\ statuses (final (install blank_download_world "dreampi.local"
                        sample_installer))
     = ["Complete"; "Failed"; "Pending"; "Pending"; "Pending"]
  /\ popens (trace (install blank_download_world "dreampi.local"
                      sample_installer)) = [].
Proof.
  split; [reflexivity|].
  assert (Hblank : forall content,
            w_urlopen blank_download_world GITHUB_REPO_URL 30 = Ret content ->
            Py.truthy (Py.strip content) = false).
  { intros content H. injection H as <-. reflexivity. }
  pose proof (download_failure_aborts blank_download_world "dreampi.local"
                sample_installer eq_refl eq_refl Hblank) as T.
  cbv zeta in T. destruct T as (_ & Hs & _ & Hp & _).
  split; assumption.
Defined.

Lemma install_run_shape_witness :
  ui_ready sample_installer
  /\ statuses (final (install refused_world "dreampi.local" sample_installer))
     ∈ run_outcomes.
Proof.
  split; [reflexivity|].
  pose proof (install_run_shape refused_world "dreampi.local"
                sample_installer eq_refl) as T.
  cbv zeta in T. destruct T as (_ & H & _). exact H.
Defined.

Lemma uninstall_outcome_witness :
  result (execute_ssh_command failing_script_world uninstall_script 120
            sample_installer)
  = Ret (1, EmptyString, "ERROR: Failed to download installation script")
  /\ message_boxes (trace (uninstall failing_script_world sample_installer))
     = [uninstall_box 1]
  /\ is_installing (final (uninstall failing_script_world sample_installer))
     = false.
Proof.
  assert (H : result (execute_ssh_command failing_script_world uninstall_script
                        120 sample_installer)
              = Ret (1, EmptyString, "ERROR: Failed to download installation script"))
    by (vm_compute; reflexivity).
  split; [exact H|].
  pose proof (uninstall_outcome failing_script_world sample_installer 1 EmptyString
                "ERROR: Failed to download installation script" H) as T.
  cbv zeta in T. destruct T as (_ & _ & Hb & _ & _ & Hi).
  split; assumption.
Defined.


Lemma command_line_witness :
  w_which_sshpass friendly_world = false
  /\ full_cmd friendly_world (set_password_var "secret" sample_installer)
       "uptime" 60
     = full_cmd friendly_world sample_installer "uptime" 60
  /\ take 3 (full_cmd hanging_world sample_installer "uptime" 60)
     = ["sshpass"; "-p"; "raspberry"].
Proof.
  split; [reflexivity|]. split.
  - pose proof (password_and_command_stay_out_of_the_log friendly_world
                  sample_installer "uptime" 60) as T.
    cbv zeta in T. destruct T as (_ & _ & _ & _ & Hno & _).
    destruct (Hno eq_refl) as [H _]. exact (H "secret").
  - pose proof (password_and_command_stay_out_of_the_log hanging_world
                  sample_installer "uptime" 60) as T.
    cbv zeta in T. destruct T as (_ & _ & _ & _ & _ & Hyes).
    destruct (Hyes eq_refl) as [H _]. exact H.
Defined.

Lemma update_step_status_witness :
  (length (step_labels sample_installer) <= 7)%nat
  /\ step_labels (final (update_step_status 7 "Complete" success_color
                           sample_installer))
     = step_labels sample_installer
  /\ step_labels (final (update_step_status 2 "Complete" success_color
                           sample_installer)) !! 2%nat
     = Some (mkLabel "Complete" success_color).
Proof.
  assert (Hout : (length (step_labels sample_installer) <= 7)%nat)
    by (vm_compute; lia).
  assert (Hin : (2 < length (step_labels sample_installer))%nat)
    by (vm_compute; lia).
  split; [exact Hout|]. split.
  - pose proof (update_step_status_touches_one_label 7 "Complete"
                  success_color sample_installer) as T.
    cbv zeta in T. destruct T as (_ & _ & _ & _ & _ & H & _). exact (H Hout).
  - pose proof (update_step_status_touches_one_label 2 "Complete"
                  success_color sample_installer) as T.
    cbv zeta in T. destruct T as (_ & _ & _ & _ & H & _). exact (H Hin).
Defined.

Lemma shortcuts_step_witness :
  result (create_windows_shortcuts friendly_world sample_installer) = Ret true
  /\ trace (create_windows_shortcuts friendly_world installer_without_shortcuts)
     = [].
Proof.
  split.
  - pose proof (shortcuts_step_counts_the_created_ones friendly_world
                  sample_installer true true eq_refl eq_refl) as T.
    cbv zeta in T. destruct T as (H & _). exact H.
  - pose proof (shortcuts_step_counts_the_created_ones friendly_world
                  installer_without_shortcuts true true eq_refl eq_refl) as T.
    cbv zeta in T. destruct T as (_ & H & _). exact H.
Defined.

Lemma summary_witness :
  statuses (final (install no_shortcut_world "dreampi.local" sample_installer))
    !! 4%nat = Some "Failed"
  /\ "• Desktop shortcut: Created"
       ∈ full_log (final (install no_shortcut_world "dreampi.local"
                            sample_installer))
  /\ "• Start Menu entry: Created"
       ∈ full_log (final (install no_shortcut_world "dreampi.local"
                            sample_installer)).
Proof.
  split; [vm_compute; reflexivity|].
  assert (H : result (execute_ssh_command no_shortcut_world install_script 300
                        sample_installer)
              = Ret (0, "=== Installation Complete ===", EmptyString))
    by (vm_compute; reflexivity).
  pose proof (summary_lists_the_selected_shortcuts no_shortcut_world
                "dreampi.local" sample_installer "#!/bin/bash"
                "=== Installation Complete ===" EmptyString
                eq_refl eq_refl eq_refl eq_refl H) as T.
  cbv zeta in T. destruct T as [Hd Hm].
  split; [exact (Hd eq_refl)|exact (Hm eq_refl)].
Defined.
